(** * Translation inference servers: a shallow embedding

    Two scripts wrap a SentencePiece tokenizer and a CTranslate2 translator
    behind the KServe model interface:

      - [src/deployment/main.py]             (module [Deployment])
      - [src/submission/deployment/main.py]  (module [Submission])

    Both define a class [TranslationModel] with the methods [__init__],
    [load], [preprocess], [predict], [_translate] and [_create_response].
    The methods are embedded as functions in a monad of exceptions over a
    world that records what the process did to its surroundings.  The
    command-line parsing and the server start-up ([parse_arguments], [main])
    only hand the wrapper to the serving framework and are left out. *)

From Stdlib Require Import String Ascii List Bool Arith ZArith Lia.
Import ListNotations.
Local Open Scope string_scope.
Local Open Scope list_scope.

(** ** Python values and exceptions *)

Module Py.

(** An instance of [Exception]: its class name and the text [str(e)] gives.
    Every handler of the two scripts is [except Exception]. *)
Record exn : Type := Exn { exn_class : string; exn_str : string }.

(** What a Python expression evaluates to: a value, or a raised exception. *)
Inductive outcome (A : Type) : Type :=
| Return (a : A)
| Raise (e : exn).
Arguments Return {A} a.
Arguments Raise {A} e.

(** The values the scripts put in a response: [str] and [list]. *)
#[local] Set Warnings "-register-all".
Inductive value : Type :=
| Str (s : string)
| List (l : list value).

(** [None.attr] *)
Definition AttributeError_None (attr : string) : exn :=
  Exn "AttributeError" ("'NoneType' object has no attribute '" ++ attr ++ "'").

(** [[...].attr] for an attribute that lists do not have *)
Definition AttributeError_list (attr : string) : exn :=
  Exn "AttributeError" ("'list' object has no attribute '" ++ attr ++ "'").

(** [l[0]] on an empty list *)
Definition IndexError : exn := Exn "IndexError" "list index out of range".

(** [obj.attr] where [obj] is [None] or a handle *)
Definition getattr {H : Type} (obj : option H) (attr : string) : outcome H :=
  match obj with
  | Some h => Return h
  | None => Raise (AttributeError_None attr)
  end.

(** [l[0]] *)
Definition item0 {A : Type} (l : list A) : outcome A :=
  match l with
  | x :: _ => Return x
  | [] => Raise IndexError
  end.

(** Text is held as the UTF-8 bytes of the Python string.  Python's
    whitespace and case tables are written out for the ASCII code points; on
    a text that holds anything else, [str.lower] and [str.strip] are what the
    interpreter's Unicode tables make of it, which the embedding takes as
    given. *)
Record Unicode : Type := {
  unicode_lower : string -> string;
  unicode_strip : string -> string
}.

Definition isascii_char (c : ascii) : bool := (nat_of_ascii c <? 128)%nat.

(** [s.isascii()] *)
Fixpoint isascii (s : string) : bool :=
  match s with
  | String c s' => isascii_char c && isascii s'
  | EmptyString => true
  end.

(** [str.isspace] on an ASCII code point: 9-13, 28-31 and 32 *)
Definition isspace (c : ascii) : bool :=
  let n := nat_of_ascii c in
  (((9 <=? n) && (n <=? 13)) || ((28 <=? n) && (n <=? 32)))%nat.

Fixpoint lstrip (s : string) : string :=
  match s with
  | String c s' => if isspace c then lstrip s' else s
  | EmptyString => EmptyString
  end.

Fixpoint rev_string (s acc : string) : string :=
  match s with
  | String c s' => rev_string s' (String c acc)
  | EmptyString => acc
  end.

Definition rstrip (s : string) : string :=
  rev_string (lstrip (rev_string s "")) "".

(** [s.strip()] for an ASCII [s] *)
Definition ascii_strip (s : string) : string := rstrip (lstrip s).

Definition lower_char (c : ascii) : ascii :=
  let n := nat_of_ascii c in
  if ((65 <=? n) && (n <=? 90))%nat then ascii_of_nat (n + 32) else c.

(** [s.lower()] for an ASCII [s] *)
Fixpoint ascii_lower (s : string) : string :=
  match s with
  | String c s' => String (lower_char c) (ascii_lower s')
  | EmptyString => EmptyString
  end.

(** [s.strip()] *)
Definition strip (u : Unicode) (s : string) : string :=
  if isascii s then ascii_strip s else unicode_strip u s.

(** [s.lower()] *)
Definition lower (u : Unicode) (s : string) : string :=
  if isascii s then ascii_lower s else unicode_lower u s.

(** [x in l] for a list of strings *)
Fixpoint contains (x : string) (l : list string) : bool :=
  match l with
  | [] => false
  | y :: l' => if String.eqb y x then true else contains x l'
  end.

(** [l.remove(x)] when [x in l]: the first occurrence goes *)
Fixpoint remove_first (x : string) (l : list string) : list string :=
  match l with
  | [] => []
  | y :: l' => if String.eqb y x then l' else y :: remove_first x l'
  end.

(** [l * n] *)
Fixpoint list_mul {A : Type} (l : list A) (n : nat) : list A :=
  match n with
  | O => []
  | S n' => l ++ list_mul l n'
  end.

End Py.
Import Py.

(** ** The libraries the scripts call *)

(** A loaded [sentencepiece.SentencePieceProcessor].  Encoding is defined on
    every text; decoding is applied to what the translator gave back and may
    raise. *)
Record SentencePieceProcessor : Type := {
  encode_as_pieces : string -> list string;
  decode : list string -> outcome string
}.

(** [ctranslate2.TranslationResult] *)
Record TranslationResult : Type := { hypotheses : list (list string) }.

(** Keyword arguments of [Translator.translate_batch], as the second script
    passes them. *)
Record BatchOptions : Type := {
  batch_type : string;
  max_batch_size : Z;
  beam_size : Z;
  target_prefix : list (list string);
  return_scores : bool;
  return_attention : bool;
  return_alternatives : bool
}.

(** A loaded [ctranslate2.Translator]: [translate_batch source] with the
    keyword arguments given ([None]: none given). *)
Record Translator : Type := {
  translate_batch :
    list (list string) -> option BatchOptions -> outcome (list TranslationResult)
}.

(** Keyword arguments of the [ctranslate2.Translator] constructor. *)
Record TranslatorOptions : Type := {
  device : string;
  device_index : Z;
  compute_type : string;
  intra_threads : option Z;
  inter_threads : Z
}.

(** What lies outside the process: the artifacts on disk, the machine, the
    identifiers [kserve.utils.utils.generate_uuid] hands out, one per call,
    and the interpreter's Unicode tables. *)
Record Env : Type := {
  spm_open : string -> outcome SentencePieceProcessor;
  translator_open : string -> option TranslatorOptions -> outcome Translator;
  cpu_count : option Z;
  uuid_at : nat -> string;
  unicode : Unicode
}.

(** An argument of [print] *)
Inductive printed : Type :=
| PrVal (v : value)
| PrExn (e : exn).

(** What the process does to its surroundings, in order. *)
Inductive event : Type :=
| EvSpmOpen (model_file : string)
| EvTranslatorOpen (dir : string) (opts : option TranslatorOptions)
| EvTranslateBatch (source : list (list string)) (opts : option BatchOptions)
| EvPrint (args : list printed).

Record World : Type := {
  trace : list event;
  uuid_calls : nat
}.

Definition world0 : World := {| trace := []; uuid_calls := 0 |}.

(** ** The monad of the embedding: exceptions over the world.  A raised
    exception keeps the world as it was when it was raised. *)

Definition M (A : Type) : Type := World -> outcome A * World.

Definition ret {A : Type} (a : A) : M A := fun w => (Return a, w).

Definition bind {A B : Type} (m : M A) (k : A -> M B) : M B :=
  fun w =>
    match m w with
    | (Return a, w') => k a w'
    | (Raise e, w') => (Raise e, w')
    end.

Definition lift {A : Type} (o : outcome A) : M A := fun w => (o, w).

(** [try: body  except Exception as e: handler e] *)
Definition try_except {A : Type} (body : M A) (handler : exn -> M A) : M A :=
  fun w =>
    match body w with
    | (Return a, w') => (Return a, w')
    | (Raise e, w') => handler e w'
    end.

(** The outcome of [m] as a value: the body of a [try] whose statements
    after [m] depend on what [m] left behind. *)
Definition attempt {A : Type} (m : M A) : M (outcome A) :=
  fun w => let (o, w') := m w in (Return o, w').

Definition emit (ev : event) : M unit :=
  fun w => (Return tt, {| trace := trace w ++ [ev]; uuid_calls := uuid_calls w |}).

Declare Scope py_scope.
Delimit Scope py_scope with py.
Notation "x <- m ;; k" := (bind m (fun x => k))
  (at level 61, m at next level, right associativity) : py_scope.
Notation "m ;; k" := (bind m (fun _ => k))
  (at level 61, right associativity) : py_scope.
Local Open Scope py_scope.

(** [for x in l: ys.append(f x)] *)
Fixpoint for_each {A B : Type} (f : A -> M B) (l : list A) : M (list B) :=
  match l with
  | [] => ret []
  | x :: l' => y <- f x ;; ys <- for_each f l' ;; ret (y :: ys)
  end.

Definition print (args : list printed) : M unit := emit (EvPrint args).

(** ** KServe's request and response objects *)

Record InferInput : Type := {
  in_name : string;
  in_shape : list Z;
  in_datatype : string;
  in_data : list value
}.

Record InferRequest : Type := {
  req_model_name : string;
  inputs : list InferInput
}.

Record InferOutput : Type := {
  out_name : string;
  out_shape : list Z;
  out_datatype : string;
  out_data : list value
}.

Record InferResponse : Type := {
  model_name : string;
  infer_outputs : list InferOutput;
  response_id : string
}.

Section Calls.
Variable env : Env.

(** [spm.SentencePieceProcessor(model_file=path)] *)
Definition SentencePieceProcessor_new (path : string) : M SentencePieceProcessor :=
  emit (EvSpmOpen path) ;; lift (spm_open env path).

(** [ctranslate2.Translator(dir, ...)] *)
Definition Translator_new (dir : string) (opts : option TranslatorOptions)
  : M Translator :=
  emit (EvTranslatorOpen dir opts) ;; lift (translator_open env dir opts).

(** [generate_uuid()] *)
Definition generate_uuid : M string :=
  fun w => (Return (uuid_at env (uuid_calls w)),
            {| trace := trace w; uuid_calls := S (uuid_calls w) |}).
End Calls.

(** [model.translate_batch(source, ...)] on a loaded translator *)
Definition call_translate_batch (tr : Translator) (source : list (list string))
    (opts : option BatchOptions) : M (list TranslationResult) :=
  emit (EvTranslateBatch source opts) ;; lift (translate_batch tr source opts).

(** [os.path.join(a, b)] for a relative [b] and an [a] that does not end
    in a separator *)
Definition path_join (a b : string) : string := a ++ "/" ++ b.

(** [tokens[0] = f(tokens[0])], as [tokens[0].insert] and
    [tokens[0].append] do it in place *)
Definition update0 (f : list string -> list string) (tokens : list (list string))
  : outcome (list (list string)) :=
  match tokens with
  | [] => Raise IndexError
  | t :: rest => Return (f t :: rest)
  end.

(** ** [src/deployment/main.py] *)

Module Deployment.

Definition MODEL_DIR : string := "./saved_model/checkpoint-1700".

Record TranslationModel : Type := {
  name : string;
  ready : bool;
  model : option Translator;
  sp_source_model : option SentencePieceProcessor;
  sp_target_model : option SentencePieceProcessor
}.

Definition set_ready (self : TranslationModel) (b : bool) : TranslationModel :=
  {| name := name self; ready := b; model := model self;
     sp_source_model := sp_source_model self;
     sp_target_model := sp_target_model self |}.

Definition set_model (self : TranslationModel) (m : option Translator)
  : TranslationModel :=
  {| name := name self; ready := ready self; model := m;
     sp_source_model := sp_source_model self;
     sp_target_model := sp_target_model self |}.

Definition set_sp_source_model (self : TranslationModel)
    (sp : option SentencePieceProcessor) : TranslationModel :=
  {| name := name self; ready := ready self; model := model self;
     sp_source_model := sp;
     sp_target_model := sp_target_model self |}.

Definition set_sp_target_model (self : TranslationModel)
    (sp : option SentencePieceProcessor) : TranslationModel :=
  {| name := name self; ready := ready self; model := model self;
     sp_source_model := sp_source_model self;
     sp_target_model := sp |}.

Section Methods.
Variable env : Env.

(** The [except] branch of [load] *)
Definition load_except (self : TranslationModel) (e : exn) : M TranslationModel :=
  print [PrVal (Str "Error loading model: "); PrExn e] ;;
  ret (set_ready self false).

(** [load] (lines 38-52): the statements of the [try] run in order; the
    first one that raises hands the object, as it then is, to the [except]
    branch. *)
Definition load (self : TranslationModel) : M TranslationModel :=
  r <- attempt (SentencePieceProcessor_new env (MODEL_DIR ++ "/source.spm")) ;;
  match r with
  | Raise e => load_except self e
  | Return src =>
    let self := set_sp_source_model self (Some src) in
    r <- attempt (SentencePieceProcessor_new env (MODEL_DIR ++ "/target.spm")) ;;
    match r with
    | Raise e => load_except self e
    | Return tgt =>
      let self := set_sp_target_model self (Some tgt) in
      r <- attempt (Translator_new env MODEL_DIR None) ;;
      match r with
      | Raise e => load_except self e
      | Return tr =>
        let self := set_model self (Some tr) in
        print [PrVal (Str "Model and tokenizer loaded")] ;;
        ret (set_ready self true)
      end
    end
  end.

(** [__init__] (lines 23-36) *)
Definition __init__ (name : string) : M TranslationModel :=
  load {| name := name; ready := false; model := None;
          sp_source_model := None; sp_target_model := None |}.

(** [preprocess] (lines 54-64): the value returned, and the request as the
    call leaves it. *)
Definition preprocess (self : TranslationModel) (payload : InferRequest)
  : outcome string * InferRequest :=
  (match item0 (inputs payload) with
   | Raise e => Raise e
   | Return input0 =>
     match item0 (in_data input0) with
     | Raise e => Raise e
     | Return (Str s) => Return (lower (unicode env) s)
     | Return (List _) => Raise (AttributeError_list "lower")
     end
   end, payload).

(** [_create_response] (lines 103-117) *)
Definition _create_response (self : TranslationModel) (translation : value)
  : M InferResponse :=
  id <- generate_uuid env ;;
  ret {| model_name := name self;
         infer_outputs :=
           [ {| out_name := "output-0"; out_shape := [1%Z];
                out_datatype := "STR"; out_data := [translation] |} ];
         response_id := id |}.

(** The body of the [try] of [_translate] (lines 90-96) *)
Definition translate_try (self : TranslationModel) (model : option Translator)
    (tokens : list (list string)) : M (list string) :=
  tr <- lift (getattr model "translate_batch") ;;
  results <- call_translate_batch tr tokens None ;;
  for_each
    (fun translation =>
       sp <- lift (getattr (sp_target_model self) "decode") ;;
       hyp <- lift (item0 (hypotheses translation)) ;;
       lift (decode sp hyp))
    results.

(** [_translate] (lines 83-101); [text] is the list of sentences. *)
Definition _translate (self : TranslationModel) (model : option Translator)
    (text : list string) : M (list string) :=
  sp <- lift (getattr (sp_source_model self) "encode") ;;
  let tokens := map (encode_as_pieces sp) text in
  tokens <- lift (update0 (fun t => "dyu" :: t) tokens) ;;
  tokens <- lift (update0 (fun t => t ++ ["</s>"]) tokens) ;;
  tokens <- lift (update0 (fun t => t ++ ["fr"]) tokens) ;;
  translations <-
    try_except (translate_try self model tokens)
      (fun e =>
         print [PrVal (Str "Translation error: "); PrExn e] ;;
         ret [""]) ;;
  let translations := ["some thing"] in
  ret translations.

(** [predict] (lines 66-79) *)
Definition predict (self : TranslationModel) (data : string) : M InferResponse :=
  let source_sentences := [strip (unicode env) data] in
  print [PrVal (List (map Str source_sentences))] ;;
  translations <- _translate self (model self) source_sentences ;;
  translation <- lift (item0 translations) ;;
  _create_response self (Str translation).

End Methods.
End Deployment.

(** ** [src/submission/deployment/main.py] *)

Module Submission.

Definition MODEL_DIR : string := "./saved_model/checkpoint-618".

Record TranslationModel : Type := {
  name : string;
  ready : bool;
  model : option Translator;
  tokenizer : option SentencePieceProcessor;
  mpn : option unit
}.

Definition set_ready (self : TranslationModel) (b : bool) : TranslationModel :=
  {| name := name self; ready := b; model := model self;
     tokenizer := tokenizer self; mpn := mpn self |}.

Definition set_model (self : TranslationModel) (m : option Translator)
  : TranslationModel :=
  {| name := name self; ready := ready self; model := m;
     tokenizer := tokenizer self; mpn := mpn self |}.

Definition set_tokenizer (self : TranslationModel)
    (sp : option SentencePieceProcessor) : TranslationModel :=
  {| name := name self; ready := ready self; model := model self;
     tokenizer := sp; mpn := mpn self |}.

Section Methods.
Variable env : Env.

(** The [except] branch of [load] *)
Definition load_except (self : TranslationModel) (e : exn) : M TranslationModel :=
  print [PrVal (Str "Error loading model:"); PrExn e] ;;
  ret (set_ready self false).

(** The keyword arguments of the [ctranslate2.Translator] call of [load];
    [intra_threads] is [os.cpu_count()]. *)
Definition translator_options : TranslatorOptions :=
  {| device := "cpu"; device_index := 0; compute_type := "int8";
     intra_threads := cpu_count env; inter_threads := 1 |}.

(** [load] (lines 37-55) *)
Definition load (self : TranslationModel) : M TranslationModel :=
  r <- attempt (SentencePieceProcessor_new env
                  (path_join MODEL_DIR "sentencepiece.bpe.model")) ;;
  match r with
  | Raise e => load_except self e
  | Return sp =>
    let self := set_tokenizer self (Some sp) in
    r <- attempt (Translator_new env MODEL_DIR (Some translator_options)) ;;
    match r with
    | Raise e => load_except self e
    | Return tr =>
      let self := set_model self (Some tr) in
      print [PrVal (Str "Model and tokenizer loaded")] ;;
      ret (set_ready self true)
    end
  end.

(** [__init__] (lines 22-35) *)
Definition __init__ (name : string) : M TranslationModel :=
  load {| name := name; ready := false; model := None;
          tokenizer := None; mpn := None |}.

(** [preprocess] (lines 57-68): the value returned, and the request as the
    call leaves it. *)
Definition preprocess (self : TranslationModel) (payload : InferRequest)
  : outcome string * InferRequest :=
  (match item0 (inputs payload) with
   | Raise e => Raise e
   | Return input0 =>
     match item0 (in_data input0) with
     | Raise e => Raise e
     | Return (Str text) => Return (strip (unicode env) text)
     | Return (List _) => Raise (AttributeError_list "strip")
     end
   end, payload).

(** [_create_response] (lines 115-129) *)
Definition _create_response (self : TranslationModel) (translation : value)
  : M InferResponse :=
  id <- generate_uuid env ;;
  ret {| model_name := name self;
         infer_outputs :=
           [ {| out_name := "output-0"; out_shape := [1%Z];
                out_datatype := "STR"; out_data := [translation] |} ];
         response_id := id |}.

(** The keyword arguments of the [translate_batch] call of [_translate] *)
Definition batch_options (target_prefix : list (list string)) : BatchOptions :=
  {| batch_type := "tokens"; max_batch_size := 256; beam_size := 1;
     target_prefix := target_prefix; return_scores := false;
     return_attention := false; return_alternatives := false |}.

(** The body of the [try] of [_translate] (lines 97-110) *)
Definition translate_try (self : TranslationModel)
    (source_sents_subworded target_prefix : list (list string)) : M value :=
  tr <- lift (getattr (model self) "translate_batch") ;;
  translations <-
    call_translate_batch tr source_sents_subworded
      (Some (batch_options target_prefix)) ;;
  result0 <- lift (item0 translations) ;;
  translation <- lift (item0 (hypotheses result0)) ;;
  let translation :=
    if contains "fra_Latn" translation
    then remove_first "fra_Latn" translation
    else translation in
  sp <- lift (getattr (tokenizer self) "decode") ;;
  trans <- lift (decode sp translation) ;;
  ret (Str trans).

(** [_translate] (lines 83-113); [text] is one sentence.  The parameter
    [model] is not used: the method reads [self.model]. *)
Definition _translate (self : TranslationModel) (model : option Translator)
    (text : string) : M value :=
  let target_prefix := list_mul [["fra_Latn"]] (length [text]) in
  source_sents_subworded <-
    for_each
      (fun sent =>
         sp <- lift (getattr (tokenizer self) "encode_as_pieces") ;;
         ret (["dyu_Latn"] ++ encode_as_pieces sp sent ++ ["</s>"]))
      [text] ;;
  try_except (translate_try self source_sents_subworded target_prefix)
    (fun e => ret (List [Str ("Error: " ++ exn_str e)])).

(** [predict] (lines 70-81) *)
Definition predict (self : TranslationModel) (data : string) : M InferResponse :=
  translation <- _translate self (model self) data ;;
  _create_response self translation.

End Methods.
End Submission.

(** ** Stand-ins for the libraries, to run the methods on *)

Module Stub.

(** A tokenizer that splits nothing and joins pieces without a separator *)
Definition tokenizer : SentencePieceProcessor :=
  {| encode_as_pieces := fun s => [s];
     decode := fun pieces => Return (String.concat "" pieces) |}.

(** A translator that answers every batch with the pieces of "Bonjour" *)
Definition translator : Translator :=
  {| translate_batch := fun _ _ => Return [ {| hypotheses := [["Bon"; "jour"]] |} ] |}.

(** A translator whose native call fails *)
Definition broken_translator : Translator :=
  {| translate_batch := fun _ _ => Raise (Exn "RuntimeError" "boom") |}.

(** The [n]-th identifier: [n] in unary *)
Fixpoint unary (n : nat) : string :=
  match n with
  | O => EmptyString
  | S n' => String "1" (unary n')
  end.

Definition not_found (path : string) : exn :=
  Exn "OSError" ("Not found: " ++ path).

(** Tables that leave a text beyond ASCII as it is *)
Definition plain_text : Unicode :=
  {| unicode_lower := fun s => s; unicode_strip := fun s => s |}.

(** Every artifact is on disk. *)
Definition env_ok : Env :=
  {| spm_open := fun _ => Return tokenizer;
     translator_open := fun _ _ => Return translator;
     cpu_count := Some 4%Z;
     uuid_at := unary;
     unicode := plain_text |}.

(** No artifact is on disk. *)
Definition env_missing : Env :=
  {| spm_open := fun path => Raise (not_found path);
     translator_open := fun dir _ => Raise (not_found dir);
     cpu_count := Some 4%Z;
     uuid_at := unary;
     unicode := plain_text |}.

(** The tokenizer files are on disk, the translator directory is not. *)
Definition env_no_translator : Env :=
  {| spm_open := fun _ => Return tokenizer;
     translator_open := fun dir _ => Raise (not_found dir);
     cpu_count := Some 4%Z;
     uuid_at := unary;
     unicode := plain_text |}.

(** The translator loads, its native call fails. *)
Definition env_broken : Env :=
  {| spm_open := fun _ => Return tokenizer;
     translator_open := fun _ _ => Return broken_translator;
     cpu_count := Some 4%Z;
     uuid_at := unary;
     unicode := plain_text |}.

(** The object [TranslationModel(name)] leaves behind, whatever the
    outcome of the constructor's last statement *)
Definition deployed (env : Env) (name : string) : Deployment.TranslationModel :=
  match fst (Deployment.__init__ env name world0) with
  | Return self => self
  | Raise _ =>
      {| Deployment.name := name; Deployment.ready := false;
         Deployment.model := None; Deployment.sp_source_model := None;
         Deployment.sp_target_model := None |}
  end.

Definition submitted (env : Env) (name : string) : Submission.TranslationModel :=
  match fst (Submission.__init__ env name world0) with
  | Return self => self
  | Raise _ =>
      {| Submission.name := name; Submission.ready := false;
         Submission.model := None; Submission.tokenizer := None;
         Submission.mpn := None |}
  end.

Definition request (text : string) : InferRequest :=
  {| req_model_name := "model";
     inputs := [ {| in_name := "input-0"; in_shape := [1%Z];
                    in_datatype := "BYTES"; in_data := [Str text] |} ] |}.

End Stub.

(** ** More stand-ins, for the edges of the translation *)

Module Cases.

(** A translator whose first hypothesis starts with the target tag, and
    which returns more than is used *)
Definition tagged_translator : Translator :=
  {| translate_batch := fun _ _ =>
       Return [ {| hypotheses := [["fra_Latn"; "Bon"; "jour"]; ["x"]] |};
                {| hypotheses := [] |} ] |}.

(** A translator that returns no result *)
Definition empty_translator : Translator :=
  {| translate_batch := fun _ _ => Return [] |}.

(** A tokenizer that cannot decode *)
Definition mute_tokenizer : SentencePieceProcessor :=
  {| encode_as_pieces := fun s => [s];
     decode := fun _ => Raise (Exn "RuntimeError" "bad piece") |}.

(** A wrapper of the second script with the given handles *)
Definition submitted_with (sp : option SentencePieceProcessor)
    (tr : option Translator) : Submission.TranslationModel :=
  {| Submission.name := "model";
     Submission.ready := match tr with Some _ => true | None => false end;
     Submission.model := tr; Submission.tokenizer := sp;
     Submission.mpn := None |}.

End Cases.

(** ** The command line and the start-up: [parse_arguments] and [main]

    The two scripts share the text of [parse_arguments] (lines 119-136 and
    131-148) and of [main] (lines 138-144 and 150-156). *)

Module Cli.

(** An [argparse] action, as far as the scripts look at it *)
Record Action : Type := {
  option_strings : list string;
  dest : string;
  default : option string;
  help : option string
}.

(** What [argparse] does outside the scripts' sight.  A parser made with
    [parents] gets the parents' actions as they are when it is made.
    [parse_args] reads the command line with the actions of the parser it is
    called on; when it ends the process instead of returning, that is its
    exception here: no handler stands between it and the end of [main]. *)
Record Argparse : Type := {
  ArgumentParser_new : list (list Action) -> outcome (list Action);
  parse_args : list Action -> list string -> outcome (list (string * string))
}.

(** [option_string in parser._option_string_actions] *)
Definition registered (actions : list Action) (option_string : string) : bool :=
  existsb (fun action => contains option_string (option_strings action)) actions.

(** [str(e)] of the [ArgumentError] that [add_argument] raises on a clash *)
Definition conflict_message (action : Action) (conflicts : list string) : string :=
  ("argument " ++ String.concat "/" (option_strings action) ++ ": "
   ++ (if (length conflicts <=? 1)%nat
       then "conflicting option string: "
       else "conflicting option strings: ")
   ++ String.concat ", " conflicts)%string.

(** [parser.add_argument(...)] with the default conflict handler: an option
    string that is registered already is an error, otherwise the action is
    appended. *)
Definition add_argument (actions : list Action) (action : Action)
  : outcome (list Action) :=
  match filter (registered actions) (option_strings action) with
  | [] => Return (actions ++ [action])
  | conflicts => Raise (Exn "ArgumentError" (conflict_message action conflicts))
  end.

(** The action of [add_argument('--model_name', default='model', help=...)] *)
Definition model_name_action : Action :=
  {| option_strings := ["--model_name"];
     dest := "model_name";
     default := Some "model";
     help := Some "The name that the model is served under." |}.

(** [parse_arguments]: the namespace returned, and the actions of
    [model_server.parser] as the call leaves them. *)
Definition parse_arguments (lib : Argparse) (argv : list string)
    (server_parser : list Action)
  : outcome (list (string * string)) * list Action :=
  match ArgumentParser_new lib [server_parser] with
  | Raise e => (Raise e, server_parser)
  | Return parser =>
    let model_name_defined :=
      existsb (fun action => contains "--model_name" (option_strings action))
        server_parser in
    match (if negb model_name_defined
           then add_argument server_parser model_name_action
           else Return server_parser) with
    | Raise e => (Raise e, server_parser)
    | Return server_parser' => (parse_args lib parser argv, server_parser')
    end
  end.

(** [args.attr] *)
Fixpoint namespace_get (args : list (string * string)) (attr : string)
  : outcome string :=
  match args with
  | [] => Raise (Exn "AttributeError"
                   ("'Namespace' object has no attribute '" ++ attr ++ "'"))
  | (k, v) :: args' => if String.eqb k attr then Return v else namespace_get args' attr
  end.

(** How many actions carry the option string *)
Definition registrations (actions : list Action) (option_string : string) : nat :=
  length (filter (fun action => contains option_string (option_strings action))
            actions).

End Cli.

(** [main] of [src/deployment/main.py]: the models [ModelServer().start] is
    called with, the actions of [model_server.parser] and the world at that
    point.  The server loop itself is the framework's. *)
Module DeploymentMain.

Definition main (env : Env) (lib : Cli.Argparse) (argv : list string)
    (server_parser : list Cli.Action) (w : World)
  : outcome (list Deployment.TranslationModel) * list Cli.Action * World :=
  match Cli.parse_arguments lib argv server_parser with
  | (Raise e, server_parser') => (Raise e, server_parser', w)
  | (Return args, server_parser') =>
    match Cli.namespace_get args "model_name" with
    | Raise e => (Raise e, server_parser', w)
    | Return model_name =>
      match Deployment.__init__ env model_name w with
      | (Raise e, w') => (Raise e, server_parser', w')
      | (Return model, w') => (Return [model], server_parser', w')
      end
    end
  end.

End DeploymentMain.

(** [main] of [src/submission/deployment/main.py] *)
Module SubmissionMain.

Definition main (env : Env) (lib : Cli.Argparse) (argv : list string)
    (server_parser : list Cli.Action) (w : World)
  : outcome (list Submission.TranslationModel) * list Cli.Action * World :=
  match Cli.parse_arguments lib argv server_parser with
  | (Raise e, server_parser') => (Raise e, server_parser', w)
  | (Return args, server_parser') =>
    match Cli.namespace_get args "model_name" with
    | Raise e => (Raise e, server_parser', w)
    | Return model_name =>
      match Submission.__init__ env model_name w with
      | (Raise e, w') => (Raise e, server_parser', w')
      | (Return model, w') => (Return [model], server_parser', w')
      end
    end
  end.

End SubmissionMain.

(** Stand-ins for [argparse] and for the framework's parser *)
Module CliStub.

(** A parser with parents holds its help action and the parents' actions;
    parsing gives every action's default and, for "--model_name NAME" at the
    head of the command line of a parser that knows the option, NAME. *)
Definition help_action : Cli.Action :=
  {| Cli.option_strings := ["-h"; "--help"]; Cli.dest := "help";
     Cli.default := None; Cli.help := Some "show this help message and exit" |}.

Definition defaults (actions : list Cli.Action) : list (string * string) :=
  flat_map (fun a => match Cli.default a with
                     | Some d => [(Cli.dest a, d)]
                     | None => []
                     end) actions.

Definition argparse : Cli.Argparse :=
  {| Cli.ArgumentParser_new := fun parents => Return (help_action :: concat parents);
     Cli.parse_args := fun actions argv =>
       match argv with
       | "--model_name" :: value :: _ =>
         if Cli.registered actions "--model_name"
         then Return (("model_name", value) :: defaults actions)
         else Raise (Exn "SystemExit" "2")
       | _ => Return (defaults actions)
       end |}.

(** The framework's parser with its own "--model_name" *)
Definition kserve_parser : list Cli.Action :=
  [ {| Cli.option_strings := ["--http_port"]; Cli.dest := "http_port";
       Cli.default := Some "8080"; Cli.help := None |};
    {| Cli.option_strings := ["--model_name"]; Cli.dest := "model_name";
       Cli.default := Some "model"; Cli.help := None |} ].

(** A parser of the framework that does not know "--model_name" *)
Definition bare_parser : list Cli.Action :=
  [ {| Cli.option_strings := ["--http_port"]; Cli.dest := "http_port";
       Cli.default := Some "8080"; Cli.help := None |} ].

End CliStub.

(** * Properties *)

(** The world after the events [new] *)
Definition after (w : World) (new : list event) : World :=
  {| trace := trace w ++ new; uuid_calls := uuid_calls w |}.

(** An attempt to read an artifact from disk *)
Definition is_open (ev : event) : bool :=
  match ev with
  | EvSpmOpen _ | EvTranslatorOpen _ _ => true
  | _ => false
  end.

(** A call of the batch translator *)
Definition is_translate_batch (ev : event) : bool :=
  match ev with
  | EvTranslateBatch _ _ => true
  | _ => false
  end.

(** The batch the first script hands to the translator: the first
    sentence framed, the others as the tokenizer gave them. *)
Definition deployment_framed (sp : SentencePieceProcessor) (s : string)
    (more : list string) : list (list string) :=
  (["dyu"] ++ encode_as_pieces sp s ++ ["</s>"; "fr"]) :: map (encode_as_pieces sp) more.

(** What the [except] branch of the first script's [_translate] prints *)
Definition deployment_error_print (e : exn) : event :=
  EvPrint [PrVal (Str "Translation error: "); PrExn e].

(** The batch the second script hands to the translator *)
Definition submission_framed (sp : SentencePieceProcessor) (text : string)
  : list (list string) :=
  [ ["dyu_Latn"] ++ encode_as_pieces sp text ++ ["</s>"] ].

(** What the [except] branch of the second script's [_translate] returns *)
Definition submission_error_value (e : exn) : value :=
  List [Str ("Error: " ++ exn_str e)].

Ltac run :=
  cbv [bind ret lift try_except attempt emit print
       SentencePieceProcessor_new Translator_new generate_uuid
       call_translate_batch] in *;
  cbn [fst snd trace uuid_calls] in *.

Lemma after_after (w : World) (l1 l2 : list event) :
  after (after w l1) l2 = after w (l1 ++ l2).
Proof. unfold after; cbn; now rewrite app_assoc. Qed.

Lemma emit_after (ev : event) (w : World) : emit ev w = (Return tt, after w [ev]).
Proof. reflexivity. Qed.

(** ** Loading *)

Module DeploymentLoad.

Import Deployment.

(** [load] of the first script: the artifacts are tried once each, in
    order, up to the first that fails. *)
Lemma deployment_load (env : Env) (self : TranslationModel) (w : World) :
  exists self' new,
    load env self w = (Return self', after w new)
    /\ name self' = name self
    /\ NoDup (filter is_open new)
    /\ ((ready self' = true
         /\ (exists src tgt tr,
               spm_open env (MODEL_DIR ++ "/source.spm")%string = Return src
               /\ spm_open env (MODEL_DIR ++ "/target.spm")%string = Return tgt
               /\ translator_open env MODEL_DIR None = Return tr
               /\ sp_source_model self' = Some src
               /\ sp_target_model self' = Some tgt
               /\ model self' = Some tr)
         /\ last new (EvPrint []) = EvPrint [PrVal (Str "Model and tokenizer loaded")])
        \/ (ready self' = false
            /\ exists e,
                 (spm_open env (MODEL_DIR ++ "/source.spm")%string = Raise e
                  \/ (exists src,
                        spm_open env (MODEL_DIR ++ "/source.spm")%string = Return src
                        /\ spm_open env (MODEL_DIR ++ "/target.spm")%string = Raise e)
                  \/ (exists src tgt,
                        spm_open env (MODEL_DIR ++ "/source.spm")%string = Return src
                        /\ spm_open env (MODEL_DIR ++ "/target.spm")%string = Return tgt
                        /\ translator_open env MODEL_DIR None = Raise e))
                 /\ last new (EvPrint [])
                    = EvPrint [PrVal (Str "Error loading model: "); PrExn e])).
Proof.
  unfold load, load_except; run.
  destruct (spm_open env (MODEL_DIR ++ "/source.spm")%string) as [src|e1] eqn:E1.
  - destruct (spm_open env (MODEL_DIR ++ "/target.spm")%string) as [tgt|e2] eqn:E2.
    + destruct (translator_open env MODEL_DIR None) as [tr|e3] eqn:E3.
      * eexists; exists [EvSpmOpen (MODEL_DIR ++ "/source.spm")%string;
                         EvSpmOpen (MODEL_DIR ++ "/target.spm")%string;
                         EvTranslatorOpen MODEL_DIR None;
                         EvPrint [PrVal (Str "Model and tokenizer loaded")]].
        split; [unfold after; cbn; now rewrite <- !app_assoc|].
        split; [reflexivity|]. split.
        { cbn. repeat constructor; cbn; intuition (try discriminate). }
        left. cbn. split; [reflexivity|]. split; [|reflexivity].
        exists src, tgt, tr. repeat split; reflexivity.
      * eexists; exists [EvSpmOpen (MODEL_DIR ++ "/source.spm")%string;
                         EvSpmOpen (MODEL_DIR ++ "/target.spm")%string;
                         EvTranslatorOpen MODEL_DIR None;
                         EvPrint [PrVal (Str "Error loading model: "); PrExn e3]].
        split; [unfold after; cbn; now rewrite <- !app_assoc|].
        split; [reflexivity|]. split.
        { cbn. repeat constructor; cbn; intuition (try discriminate). }
        right. cbn. split; [reflexivity|]. exists e3. split; [|reflexivity].
        eauto 8.
    + eexists; exists [EvSpmOpen (MODEL_DIR ++ "/source.spm")%string;
                       EvSpmOpen (MODEL_DIR ++ "/target.spm")%string;
                       EvPrint [PrVal (Str "Error loading model: "); PrExn e2]].
      split; [unfold after; cbn; now rewrite <- !app_assoc|].
      split; [reflexivity|]. split.
      { cbn. repeat constructor; cbn; intuition (try discriminate). }
      right. cbn. split; [reflexivity|]. exists e2. split; [|reflexivity].
      eauto 8.
  - eexists; exists [EvSpmOpen (MODEL_DIR ++ "/source.spm")%string;
                     EvPrint [PrVal (Str "Error loading model: "); PrExn e1]].
    split; [unfold after; cbn; now rewrite <- !app_assoc|].
    split; [reflexivity|]. split.
    { cbn. repeat constructor; cbn; intuition. }
    right. cbn. split; [reflexivity|]. exists e1. split; [|reflexivity].
    eauto 8.
Qed.

End DeploymentLoad.

Module SubmissionLoad.

Import Submission.

(** [load] of the second script *)
Lemma submission_load (env : Env) (self : TranslationModel) (w : World) :
  exists self' new,
    load env self w = (Return self', after w new)
    /\ name self' = name self
    /\ NoDup (filter is_open new)
    /\ ((ready self' = true
         /\ (exists sp tr,
               spm_open env (path_join MODEL_DIR "sentencepiece.bpe.model") = Return sp
               /\ translator_open env MODEL_DIR (Some (translator_options env))
                  = Return tr
               /\ tokenizer self' = Some sp
               /\ model self' = Some tr)
         /\ last new (EvPrint []) = EvPrint [PrVal (Str "Model and tokenizer loaded")])
        \/ (ready self' = false
            /\ exists e,
                 (spm_open env (path_join MODEL_DIR "sentencepiece.bpe.model") = Raise e
                  \/ (exists sp,
                        spm_open env (path_join MODEL_DIR "sentencepiece.bpe.model")
                        = Return sp
                        /\ translator_open env MODEL_DIR (Some (translator_options env))
                           = Raise e))
                 /\ last new (EvPrint [])
                    = EvPrint [PrVal (Str "Error loading model:"); PrExn e])).
Proof.
  unfold load, load_except; run.
  set (file := path_join MODEL_DIR "sentencepiece.bpe.model").
  set (opts := Some (translator_options env)).
  destruct (spm_open env file) as [sp|e1] eqn:E1.
  - destruct (translator_open env MODEL_DIR opts) as [tr|e2] eqn:E2.
    + eexists; exists [EvSpmOpen file; EvTranslatorOpen MODEL_DIR opts;
                       EvPrint [PrVal (Str "Model and tokenizer loaded")]].
      split; [unfold after; cbn; now rewrite <- !app_assoc|].
      split; [reflexivity|]. split.
      { cbn. repeat constructor; cbn; intuition (try discriminate). }
      left. cbn. split; [reflexivity|]. split; [|reflexivity].
      exists sp, tr. repeat split; reflexivity.
    + eexists; exists [EvSpmOpen file; EvTranslatorOpen MODEL_DIR opts;
                       EvPrint [PrVal (Str "Error loading model:"); PrExn e2]].
      split; [unfold after; cbn; now rewrite <- !app_assoc|].
      split; [reflexivity|]. split.
      { cbn. repeat constructor; cbn; intuition (try discriminate). }
      right. cbn. split; [reflexivity|]. exists e2. split; [|reflexivity]. eauto 8.
  - eexists; exists [EvSpmOpen file;
                     EvPrint [PrVal (Str "Error loading model:"); PrExn e1]].
    split; [unfold after; cbn; now rewrite <- !app_assoc|].
    split; [reflexivity|]. split.
    { cbn. repeat constructor; cbn; intuition. }
    right. cbn. split; [reflexivity|]. exists e1. split; [|reflexivity]. eauto 8.
Qed.

End SubmissionLoad.

(** ** Translating *)

Lemma for_each_world {A B : Type} (f : A -> M B) :
  (forall x w, snd (f x w) = w) ->
  forall l w, snd (for_each f l w) = w.
Proof.
  intros Hf l; induction l as [|x l IH]; intros w; cbn; [reflexivity|].
  unfold bind. specialize (Hf x w).
  destruct (f x w) as [[y|e] w1]; cbn in Hf; subst w1; [|reflexivity].
  specialize (IH w). destruct (for_each f l w) as [[ys|e] w2]; cbn in IH; now subst.
Qed.

Module DeploymentTranslate.

Import Deployment.

Lemma deployment_translate_try_none (self : TranslationModel) tokens w :
  translate_try self None tokens w = (Raise (AttributeError_None "translate_batch"), w).
Proof. reflexivity. Qed.

Lemma deployment_translate_try_world (self : TranslationModel) tr tokens w :
  snd (translate_try self (Some tr) tokens w)
  = after w [EvTranslateBatch tokens None].
Proof.
  unfold translate_try; run. cbn [getattr].
  destruct (translate_batch tr tokens None) as [results|e]; [|reflexivity].
  unfold after. apply for_each_world. intros x w0.
  destruct (sp_target_model self) as [sp|]; cbn; [|reflexivity].
  destruct (item0 (hypotheses x)); reflexivity.
Qed.

(** [_translate] once the source tokenizer is there: the [try] runs on the
    deployment_framed batch, and whatever it leaves is replaced. *)
Lemma deployment_translate_unfold (self : TranslationModel) sp model s more w :
  sp_source_model self = Some sp ->
  _translate self model (s :: more) w
  = (Return ["some thing"],
     match translate_try self model (deployment_framed sp s more) w with
     | (Return _, w1) => w1
     | (Raise e, w1) => after w1 [deployment_error_print e]
     end).
Proof.
  intros Hsp. unfold _translate, deployment_framed. rewrite Hsp. run. cbn [getattr map update0].
  replace ((("dyu" :: encode_as_pieces sp s) ++ ["</s>"]) ++ ["fr"])
    with (["dyu"] ++ encode_as_pieces sp s ++ ["</s>"; "fr"])
    by (cbn; now rewrite <- app_assoc).
  destruct (translate_try self model _ w) as [[v|e] w1]; reflexivity.
Qed.

Lemma deployment_translate_no_tokenizer (self : TranslationModel) model text w :
  sp_source_model self = None ->
  _translate self model text w = (Raise (AttributeError_None "encode"), w).
Proof. intros H. unfold _translate. rewrite H. reflexivity. Qed.

Lemma deployment_translate_empty_batch (self : TranslationModel) sp model w :
  sp_source_model self = Some sp ->
  _translate self model [] w = (Raise IndexError, w).
Proof. intros H. unfold _translate. rewrite H. reflexivity. Qed.

(** [predict] once the source tokenizer is there *)
Lemma deployment_predict_unfold (env : Env) (self : TranslationModel) sp data w :
  sp_source_model self = Some sp ->
  exists w1,
    predict env self data w
    = (Return {| model_name := name self;
                 infer_outputs :=
                   [ {| out_name := "output-0"; out_shape := [1%Z];
                        out_datatype := "STR"; out_data := [Str "some thing"] |} ];
                 response_id := uuid_at env (uuid_calls w) |},
       {| trace := trace w1; uuid_calls := S (uuid_calls w) |})
    /\ uuid_calls w1 = uuid_calls w.
Proof.
  intros Hsp. unfold predict.
  unfold bind at 1. unfold print. rewrite emit_after.
  unfold bind at 1. rewrite (deployment_translate_unfold self sp _ _ [] _ Hsp).
  set (w0 := after w _).
  assert (Hw : exists w1, match translate_try self (model self) (deployment_framed sp (strip (unicode env) data) []) w0 with
                | (Return _, w1) => w1
                | (Raise e, w1) => after w1 [deployment_error_print e]
                end = w1 /\ uuid_calls w1 = uuid_calls w).
  { destruct (model self) as [tr|].
    - pose proof (deployment_translate_try_world self tr (deployment_framed sp (strip (unicode env) data) []) w0) as Hsnd.
      destruct (translate_try self (Some tr) _ w0) as [[v|e] w1]; cbn in Hsnd; subst w1;
        eexists; split; reflexivity.
    - rewrite deployment_translate_try_none. eexists; split; reflexivity. }
  destruct Hw as (w1 & -> & Hc). exists w1. split; [|exact Hc].
  unfold _create_response; run. cbn. now rewrite Hc.
Qed.

End DeploymentTranslate.

Module SubmissionTranslate.

Import Submission.

Lemma submission_translate_try_none (self : TranslationModel) src tp w :
  model self = None ->
  translate_try self src tp w = (Raise (AttributeError_None "translate_batch"), w).
Proof. intros H. unfold translate_try. rewrite H. reflexivity. Qed.

Lemma submission_translate_try_world (self : TranslationModel) tr src tp w :
  model self = Some tr ->
  snd (translate_try self src tp w)
  = after w [EvTranslateBatch src (Some (batch_options tp))].
Proof.
  intros H. unfold translate_try. rewrite H. run. cbn [getattr].
  destruct (translate_batch tr src _) as [results|e]; [|reflexivity].
  destruct (item0 results) as [r0|e]; [|reflexivity].
  destruct (item0 (hypotheses r0)) as [h|e]; [|reflexivity].
  destruct (getattr (tokenizer self) "decode") as [sp|e]; [|reflexivity].
  destruct (decode sp _); reflexivity.
Qed.

(** [_translate] once the tokenizer is there *)
Lemma submission_translate_unfold (self : TranslationModel) sp model text w :
  tokenizer self = Some sp ->
  _translate self model text w
  = match translate_try self (submission_framed sp text) [["fra_Latn"]] w with
    | (Return v, w1) => (Return v, w1)
    | (Raise e, w1) => (Return (submission_error_value e), w1)
    end.
Proof.
  intros Hsp. unfold _translate, submission_framed. cbn [for_each length list_mul app].
  rewrite Hsp. reflexivity.
Qed.

Lemma submission_translate_no_tokenizer (self : TranslationModel) model text w :
  tokenizer self = None ->
  _translate self model text w
  = (Raise (AttributeError_None "encode_as_pieces"), w).
Proof.
  intros H. unfold _translate. cbn [for_each]. rewrite H. reflexivity.
Qed.

Lemma submission_translate_returns (self : TranslationModel) sp model text w :
  tokenizer self = Some sp ->
  exists v w1,
    _translate self model text w = (Return v, w1)
    /\ uuid_calls w1 = uuid_calls w.
Proof.
  intros Hsp. rewrite (submission_translate_unfold self sp model text w Hsp).
  destruct (Submission.model self) as [tr|] eqn:Hm.
  - pose proof (submission_translate_try_world self tr (submission_framed sp text) [["fra_Latn"]] w Hm) as Hw.
    destruct (translate_try self _ _ w) as [[v|e] w1]; cbn in Hw; subst w1;
      eexists; eexists; split; reflexivity.
  - rewrite (submission_translate_try_none self _ _ w Hm).
    eexists; eexists; split; reflexivity.
Qed.

(** [predict] once the tokenizer is there *)
Lemma submission_predict_unfold (env : Env) (self : TranslationModel) sp data w :
  tokenizer self = Some sp ->
  exists v w1,
    _translate self (model self) data w = (Return v, w1)
    /\ uuid_calls w1 = uuid_calls w
    /\ predict env self data w
       = (Return {| model_name := name self;
                    infer_outputs :=
                      [ {| out_name := "output-0"; out_shape := [1%Z];
                           out_datatype := "STR"; out_data := [v] |} ];
                    response_id := uuid_at env (uuid_calls w) |},
          {| trace := trace w1; uuid_calls := S (uuid_calls w) |}).
Proof.
  intros Hsp.
  destruct (submission_translate_returns self sp (model self) data w Hsp) as (v & w1 & Ht & Hc).
  exists v, w1. split; [exact Ht|]. split; [exact Hc|].
  unfold predict, bind. rewrite Ht. unfold _create_response; run. cbn.
  now rewrite Hc.
Qed.

End SubmissionTranslate.

(** * The claims *)

(** C5.  [load] never raises and ends in one of two ways, in both scripts.
    Either every artifact was read (the tokenizer file or files and the
    translator directory), the handles are stored, "Model and tokenizer
    loaded" is printed last and [ready] is true; or some read raised [e], the
    error line with [e] is printed last and [ready] is false, [e] being the
    exception of the first read that failed.  No artifact is read twice: there
    is no retry. *)
Theorem load_sets_ready_or_logs_failure (env : Env) :
  (forall (self : Deployment.TranslationModel) (w : World),
      exists self' new,
        Deployment.load env self w = (Return self', after w new)
        /\ NoDup (filter is_open new)
        /\ ((Deployment.ready self' = true
             /\ (exists src tgt tr,
                   spm_open env "./saved_model/checkpoint-1700/source.spm" = Return src
                   /\ spm_open env "./saved_model/checkpoint-1700/target.spm" = Return tgt
                   /\ translator_open env "./saved_model/checkpoint-1700" None = Return tr
                   /\ Deployment.sp_source_model self' = Some src
                   /\ Deployment.sp_target_model self' = Some tgt
                   /\ Deployment.model self' = Some tr)
             /\ last new (EvPrint [])
                = EvPrint [PrVal (Str "Model and tokenizer loaded")])
            \/ (Deployment.ready self' = false
                /\ exists e,
                     (spm_open env "./saved_model/checkpoint-1700/source.spm" = Raise e
                      \/ (exists src,
                            spm_open env "./saved_model/checkpoint-1700/source.spm"
                            = Return src
                            /\ spm_open env "./saved_model/checkpoint-1700/target.spm"
                               = Raise e)
                      \/ (exists src tgt,
                            spm_open env "./saved_model/checkpoint-1700/source.spm"
                            = Return src
                            /\ spm_open env "./saved_model/checkpoint-1700/target.spm"
                               = Return tgt
                            /\ translator_open env "./saved_model/checkpoint-1700" None
                               = Raise e))
                     /\ last new (EvPrint [])
                        = EvPrint [PrVal (Str "Error loading model: "); PrExn e])))
  /\
  (forall (self : Submission.TranslationModel) (w : World),
      exists self' new,
        Submission.load env self w = (Return self', after w new)
        /\ NoDup (filter is_open new)
        /\ ((Submission.ready self' = true
             /\ (exists sp tr,
                   spm_open env "./saved_model/checkpoint-618/sentencepiece.bpe.model"
                   = Return sp
                   /\ translator_open env "./saved_model/checkpoint-618"
                        (Some (Submission.translator_options env)) = Return tr
                   /\ Submission.tokenizer self' = Some sp
                   /\ Submission.model self' = Some tr)
             /\ last new (EvPrint [])
                = EvPrint [PrVal (Str "Model and tokenizer loaded")])
            \/ (Submission.ready self' = false
                /\ exists e,
                     (spm_open env "./saved_model/checkpoint-618/sentencepiece.bpe.model"
                      = Raise e
                      \/ (exists sp,
                            spm_open env
                              "./saved_model/checkpoint-618/sentencepiece.bpe.model"
                            = Return sp
                            /\ translator_open env "./saved_model/checkpoint-618"
                                 (Some (Submission.translator_options env)) = Raise e))
                     /\ last new (EvPrint [])
                        = EvPrint [PrVal (Str "Error loading model:"); PrExn e]))).
Proof.
  split; intros self w.
  - destruct (DeploymentLoad.deployment_load env self w)
      as (self' & new & Hl & _ & Hnd & Hcases).
    exists self', new. repeat split; [exact Hl|exact Hnd|exact Hcases].
  - destruct (SubmissionLoad.submission_load env self w)
      as (self' & new & Hl & _ & Hnd & Hcases).
    exists self', new. repeat split; [exact Hl|exact Hnd|exact Hcases].
Qed.

(** C2.  In the first script [_translate] gives back ["some thing"] and
    nothing else: for every wrapper whose source tokenizer is loaded, every
    translator (loaded or not, returning or raising) and every batch of at
    least one sentence it returns the list ["some thing"]; whenever it
    returns at all, that list is what it returns; and so the data of the
    response [predict] builds is ["some thing"], whatever the translator
    decoded. *)
Theorem deployment_translate_discards_translation :
  (forall (self : Deployment.TranslationModel) sp (model : option Translator)
          (s : string) (more : list string) (w : World),
      Deployment.sp_source_model self = Some sp ->
      exists w', Deployment._translate self model (s :: more) w
                 = (Return ["some thing"], w'))
  /\
  (forall (self : Deployment.TranslationModel) (model : option Translator)
          (text : list string) (w w' : World) (v : list string),
      Deployment._translate self model text w = (Return v, w') ->
      v = ["some thing"])
  /\
  (forall (env : Env) (self : Deployment.TranslationModel) sp (data : string)
          (w : World),
      Deployment.sp_source_model self = Some sp ->
      exists resp w',
        Deployment.predict env self data w = (Return resp, w')
        /\ map out_data (infer_outputs resp) = [[Str "some thing"]]).
Proof.
  split; [|split].
  - intros self sp model s more w Hsp.
    rewrite (DeploymentTranslate.deployment_translate_unfold self sp model s more w Hsp).
    eexists; reflexivity.
  - intros self model text w w' v H.
    destruct (Deployment.sp_source_model self) as [sp|] eqn:Hsp.
    + destruct text as [|s more].
      * rewrite (DeploymentTranslate.deployment_translate_empty_batch self sp model w Hsp)
          in H. discriminate.
      * rewrite (DeploymentTranslate.deployment_translate_unfold self sp model s more w Hsp)
          in H. now inversion H.
    + rewrite (DeploymentTranslate.deployment_translate_no_tokenizer self model text w Hsp)
        in H. discriminate.
  - intros env self sp data w Hsp.
    destruct (DeploymentTranslate.deployment_predict_unfold env self sp data w Hsp)
      as (w1 & Hp & _).
    rewrite Hp. eexists; eexists; split; reflexivity.
Qed.

(** The theorem above on the stand-ins: the translator decodes to
    "Bonjour", the response says "some thing". *)
Lemma deployment_translate_discards_translation_witness :
  Deployment.sp_source_model (Stub.deployed Stub.env_ok "model") = Some Stub.tokenizer
  /\ (exists w', Deployment._translate (Stub.deployed Stub.env_ok "model")
                   (Some Stub.translator) ["hello"] world0
                 = (Return ["some thing"], w'))
  /\ (exists resp w',
         Deployment.predict Stub.env_ok (Stub.deployed Stub.env_ok "model")
           "hello" world0 = (Return resp, w')
         /\ map out_data (infer_outputs resp) = [[Str "some thing"]]).
Proof.
  destruct deployment_translate_discards_translation as (H1 & _ & H3).
  split; [reflexivity|]. split.
  - apply (H1 _ Stub.tokenizer). reflexivity.
  - apply (H3 _ _ Stub.tokenizer). reflexivity.
Defined.

(** C6.  Framing of the tokens.  First script: with the source tokenizer and
    the translator loaded, [_translate] calls the batch translator exactly
    once, with no keyword argument, on a batch whose first sequence is
    ["dyu"] ++ pieces ++ ["</s>"; "fr"].  Second script: with the tokenizer
    and the translator loaded, [_translate] calls the batch translator exactly
    once, on the one-sequence batch [["dyu_Latn"] ++ pieces ++ ["</s>"]], with
    the target prefix [[["fra_Latn"]]], whose length is 1, the size of the
    batch. *)
Theorem tokenization_framing :
  (forall (self : Deployment.TranslationModel) sp tr (s : string)
          (more : list string) (w : World),
      Deployment.sp_source_model self = Some sp ->
      exists o rest,
        Deployment._translate self (Some tr) (s :: more) w
        = (o, after w
                (EvTranslateBatch
                   ((["dyu"] ++ encode_as_pieces sp s ++ ["</s>"; "fr"])
                      :: map (encode_as_pieces sp) more)
                   None :: rest))
        /\ filter is_translate_batch rest = [])
  /\
  (forall (self : Submission.TranslationModel) sp tr (model : option Translator)
          (text : string) (w : World),
      Submission.tokenizer self = Some sp ->
      Submission.model self = Some tr ->
      exists o opts,
        Submission._translate self model text w
        = (o, after w
                [EvTranslateBatch
                   [["dyu_Latn"] ++ encode_as_pieces sp text ++ ["</s>"]]
                   (Some opts)])
        /\ target_prefix opts = [["fra_Latn"]]
        /\ length (target_prefix opts) = 1
        /\ length (target_prefix opts) = length [text]).
Proof.
  split.
  - intros self sp tr s more w Hsp.
    rewrite (DeploymentTranslate.deployment_translate_unfold self sp _ s more w Hsp).
    pose proof (DeploymentTranslate.deployment_translate_try_world self tr
                  (deployment_framed sp s more) w) as Hw.
    destruct (Deployment.translate_try self (Some tr) _ w) as [[v|e] w1];
      cbn [snd] in Hw; subst w1.
    + exists (Return ["some thing"]), []. split; reflexivity.
    + exists (Return ["some thing"]), [deployment_error_print e].
      split; [|reflexivity]. now rewrite after_after.
  - intros self sp tr model text w Hsp Hm.
    rewrite (SubmissionTranslate.submission_translate_unfold self sp model text w Hsp).
    pose proof (SubmissionTranslate.submission_translate_try_world self tr
                  (submission_framed sp text) [["fra_Latn"]] w Hm) as Hw.
    destruct (Submission.translate_try self _ _ w) as [[v|e] w1];
      cbn [snd] in Hw; subst w1;
      eexists; exists (Submission.batch_options [["fra_Latn"]]);
      repeat split; reflexivity.
Qed.

(** The framing on the stand-ins, for the text "hello" *)
Lemma tokenization_framing_witness :
  (exists o rest,
      Deployment._translate (Stub.deployed Stub.env_ok "model")
        (Some Stub.translator) ["hello"] world0
      = (o, after world0
              (EvTranslateBatch [["dyu"; "hello"; "</s>"; "fr"]] None :: rest))
      /\ filter is_translate_batch rest = [])
  /\
  (exists o opts,
      Submission._translate (Stub.submitted Stub.env_ok "model") None "hello" world0
      = (o, after world0
              [EvTranslateBatch [["dyu_Latn"; "hello"; "</s>"]] (Some opts)])
      /\ target_prefix opts = [["fra_Latn"]]
      /\ length (target_prefix opts) = 1
      /\ length (target_prefix opts) = length ["hello"]).
Proof.
  destruct tokenization_framing as (H1 & H2). split.
  - apply (H1 (Stub.deployed Stub.env_ok "model") Stub.tokenizer Stub.translator
              "hello" [] world0). reflexivity.
  - apply (H2 (Stub.submitted Stub.env_ok "model") Stub.tokenizer Stub.translator
              None "hello" world0); reflexivity.
Defined.

(** C4.  An exception raised inside the [try] of [_translate] (by the
    batch-translate call, by taking the first result or hypothesis, or by
    decoding) does not leave [_translate], which returns a substitute instead.
    First script: the error is printed and the list ["some thing"] is
    returned, of which [predict] takes the string "some thing".  Second
    script: the one-element list holding "Error: " followed by the
    exception's message is returned, where the method's docstring announces a
    string and its other path returns one. *)
Theorem translate_returns_substitute_on_exception :
  (forall (self : Deployment.TranslationModel) sp (model : option Translator)
          (s : string) (more : list string) (w w1 : World) (e : exn),
      Deployment.sp_source_model self = Some sp ->
      Deployment.translate_try self model (deployment_framed sp s more) w
      = (Raise e, w1) ->
      Deployment._translate self model (s :: more) w
      = (Return ["some thing"],
         after w1 [EvPrint [PrVal (Str "Translation error: "); PrExn e]]))
  /\
  (forall (self : Deployment.TranslationModel) sp tr (s : string)
          (more : list string) (w : World) (e : exn),
      Deployment.sp_source_model self = Some sp ->
      translate_batch tr (deployment_framed sp s more) None = Raise e ->
      exists w',
        Deployment._translate self (Some tr) (s :: more) w
        = (Return ["some thing"], w'))
  /\
  (forall (self : Submission.TranslationModel) sp (model : option Translator)
          (text : string) (w w1 : World) (e : exn),
      Submission.tokenizer self = Some sp ->
      Submission.translate_try self (submission_framed sp text) [["fra_Latn"]] w
      = (Raise e, w1) ->
      Submission._translate self model text w
      = (Return (List [Str ("Error: " ++ exn_str e)]), w1))
  /\
  (forall (self : Submission.TranslationModel) sp tr (model : option Translator)
          (text : string) (w : World) (e : exn),
      Submission.tokenizer self = Some sp ->
      Submission.model self = Some tr ->
      translate_batch tr (submission_framed sp text)
        (Some (Submission.batch_options [["fra_Latn"]])) = Raise e ->
      exists w',
        Submission._translate self model text w
        = (Return (List [Str ("Error: " ++ exn_str e)]), w')).
Proof.
  repeat split.
  - intros self sp model s more w w1 e Hsp Htry.
    rewrite (DeploymentTranslate.deployment_translate_unfold self sp model s more w Hsp).
    now rewrite Htry.
  - intros self sp tr s more w e Hsp Hb.
    rewrite (DeploymentTranslate.deployment_translate_unfold self sp _ s more w Hsp).
    eexists; reflexivity.
  - intros self sp model text w w1 e Hsp Htry.
    rewrite (SubmissionTranslate.submission_translate_unfold self sp model text w Hsp).
    now rewrite Htry.
  - intros self sp tr model text w e Hsp Hm Hb.
    rewrite (SubmissionTranslate.submission_translate_unfold self sp model text w Hsp).
    unfold Submission.translate_try. rewrite Hm. run. cbn [getattr].
    rewrite Hb. eexists; reflexivity.
Qed.

(** The theorem above on a translator whose native call raises
    [RuntimeError("boom")] *)
Lemma translate_returns_substitute_on_exception_witness :
  (exists w',
      Deployment._translate (Stub.deployed Stub.env_broken "model")
        (Some Stub.broken_translator) ["hello"] world0
      = (Return ["some thing"], w'))
  /\
  (exists w',
      Submission._translate (Stub.submitted Stub.env_broken "model") None
        "hello" world0
      = (Return (List [Str "Error: boom"]), w')).
Proof.
  destruct translate_returns_substitute_on_exception as (_ & H2 & _ & H4). split.
  - apply (H2 (Stub.deployed Stub.env_broken "model") Stub.tokenizer
              Stub.broken_translator "hello" [] world0
              (Exn "RuntimeError" "boom")); reflexivity.
  - apply (H4 (Stub.submitted Stub.env_broken "model") Stub.tokenizer
              Stub.broken_translator None "hello" world0
              (Exn "RuntimeError" "boom")); reflexivity.
Defined.

(** ** Construction *)

(** The constructor of the first script never raises; [ready] is true only
    with every handle in place, and a false [ready] leaves no translator. *)
Lemma deployment_init (env : Env) (name : string) (w : World) :
  exists self new,
    Deployment.__init__ env name w = (Return self, after w new)
    /\ Deployment.name self = name
    /\ (Deployment.ready self = true ->
        exists src tgt tr,
          Deployment.sp_source_model self = Some src
          /\ Deployment.sp_target_model self = Some tgt
          /\ Deployment.model self = Some tr)
    /\ (Deployment.ready self = false -> Deployment.model self = None).
Proof.
  unfold Deployment.__init__, Deployment.load, Deployment.load_except; run.
  destruct (spm_open env _) as [src|e1];
    [destruct (spm_open env _) as [tgt|e2];
     [destruct (translator_open env _ _) as [tr|e3]|]|];
    eexists; eexists; (split; [unfold after; cbn [trace uuid_calls];
                               rewrite <- ?app_assoc; cbn [app]; reflexivity|]);
    cbn; repeat split; try discriminate; eauto 8.
Qed.

(** The same for the second script *)
Lemma submission_init (env : Env) (name : string) (w : World) :
  exists self new,
    Submission.__init__ env name w = (Return self, after w new)
    /\ Submission.name self = name
    /\ (Submission.ready self = true ->
        exists sp tr,
          Submission.tokenizer self = Some sp
          /\ Submission.model self = Some tr)
    /\ (Submission.ready self = false -> Submission.model self = None).
Proof.
  unfold Submission.__init__, Submission.load, Submission.load_except; run.
  destruct (spm_open env _) as [sp|e1];
    [destruct (translator_open env _ _) as [tr|e2]|];
    eexists; eexists; (split; [unfold after; cbn [trace uuid_calls];
                               rewrite <- ?app_assoc; cbn [app]; reflexivity|]);
    cbn; repeat split; try discriminate; eauto 8.
Qed.

(** C7.  On a wrapper that its constructor left ready, [predict] returns,
    for every source string (so for every non-empty one), a response with
    exactly one output, of datatype "STR" and shape [1], whose data list has
    exactly one element, under the name the wrapper was constructed with. *)
Theorem predict_response_shape (env : Env) (name : string) (w0 : World) :
  (forall (self : Deployment.TranslationModel) (w1 : World),
      Deployment.__init__ env name w0 = (Return self, w1) ->
      Deployment.ready self = true ->
      forall (data : string) (w : World),
      exists resp o w',
        Deployment.predict env self data w = (Return resp, w')
        /\ infer_outputs resp = [o]
        /\ out_datatype o = "STR"
        /\ out_shape o = [1%Z]
        /\ length (out_data o) = 1
        /\ model_name resp = name)
  /\
  (forall (self : Submission.TranslationModel) (w1 : World),
      Submission.__init__ env name w0 = (Return self, w1) ->
      Submission.ready self = true ->
      forall (data : string) (w : World),
      exists resp o w',
        Submission.predict env self data w = (Return resp, w')
        /\ infer_outputs resp = [o]
        /\ out_datatype o = "STR"
        /\ out_shape o = [1%Z]
        /\ length (out_data o) = 1
        /\ model_name resp = name).
Proof.
  split; intros self w1 Hinit Hready data w.
  - destruct (deployment_init env name w0) as (self' & new & Hi & Hn & Hr & _).
    rewrite Hi in Hinit. inversion Hinit; subst self'.
    destruct (Hr Hready) as (src & _ & _ & Hsrc & _).
    destruct (DeploymentTranslate.deployment_predict_unfold env self src data w Hsrc)
      as (w2 & Hp & _).
    rewrite Hp. eexists; eexists; eexists. split; [reflexivity|].
    cbn. repeat split; try reflexivity. exact Hn.
  - destruct (submission_init env name w0) as (self' & new & Hi & Hn & Hr & _).
    rewrite Hi in Hinit. inversion Hinit; subst self'.
    destruct (Hr Hready) as (sp & _ & Hsp & _).
    destruct (SubmissionTranslate.submission_predict_unfold env self sp data w Hsp)
      as (v & w2 & _ & _ & Hp).
    rewrite Hp. eexists; eexists; eexists. split; [reflexivity|].
    cbn. repeat split; try reflexivity. exact Hn.
Qed.

(** The theorem above for the wrappers built over the stand-ins and the
    source string "Hello" *)
Lemma predict_response_shape_witness :
  (exists resp o w',
      Deployment.predict Stub.env_ok (Stub.deployed Stub.env_ok "model") "Hello" world0
      = (Return resp, w')
      /\ infer_outputs resp = [o]
      /\ out_datatype o = "STR"
      /\ out_shape o = [1%Z]
      /\ length (out_data o) = 1
      /\ model_name resp = "model")
  /\
  (exists resp o w',
      Submission.predict Stub.env_ok (Stub.submitted Stub.env_ok "model") "Hello" world0
      = (Return resp, w')
      /\ infer_outputs resp = [o]
      /\ out_datatype o = "STR"
      /\ out_shape o = [1%Z]
      /\ length (out_data o) = 1
      /\ model_name resp = "model").
Proof.
  destruct (predict_response_shape Stub.env_ok "model" world0) as (H1 & H2). split.
  - apply (H1 (Stub.deployed Stub.env_ok "model")
                 (snd (Deployment.__init__ Stub.env_ok "model" world0)));
      vm_compute; reflexivity.
  - apply (H2 (Stub.submitted Stub.env_ok "model")
                 (snd (Submission.__init__ Stub.env_ok "model" world0)));
      vm_compute; reflexivity.
Defined.

(** C1.  End to end on "Hello", with every handle loaded and a translator
    whose first result's first hypothesis decodes to "Bonjour".  The second
    script answers with the data ["Bonjour"]; the first script answers with
    the data ["some thing"]. *)
Theorem end_to_end_hello (env : Env) :
  (forall (self : Deployment.TranslationModel) src tgt tr r rest h hs (w : World),
      Deployment.sp_source_model self = Some src ->
      Deployment.sp_target_model self = Some tgt ->
      Deployment.model self = Some tr ->
      translate_batch tr (deployment_framed src "Hello" []) None = Return (r :: rest) ->
      hypotheses r = h :: hs ->
      decode tgt h = Return "Bonjour" ->
      exists resp w',
        Deployment.predict env self "Hello" w = (Return resp, w')
        /\ map out_data (infer_outputs resp) = [[Str "some thing"]])
  /\
  (forall (self : Submission.TranslationModel) sp tr r rest h hs (w : World),
      Submission.tokenizer self = Some sp ->
      Submission.model self = Some tr ->
      translate_batch tr (submission_framed sp "Hello")
        (Some (Submission.batch_options [["fra_Latn"]])) = Return (r :: rest) ->
      hypotheses r = h :: hs ->
      decode sp (if contains "fra_Latn" h then remove_first "fra_Latn" h else h)
      = Return "Bonjour" ->
      exists resp w',
        Submission.predict env self "Hello" w = (Return resp, w')
        /\ map out_data (infer_outputs resp) = [[Str "Bonjour"]]).
Proof.
  split.
  - intros self src tgt tr r rest h hs w Hsrc _ _ _ _ _.
    destruct (DeploymentTranslate.deployment_predict_unfold env self src "Hello" w Hsrc)
      as (w1 & Hp & _).
    rewrite Hp. eexists; eexists; split; reflexivity.
  - intros self sp tr r rest h hs w Hsp Hm Hb Hh Hd.
    unfold Submission.predict, bind.
    rewrite (SubmissionTranslate.submission_translate_unfold self sp _ "Hello" w Hsp).
    unfold Submission.translate_try. rewrite Hm, Hsp. run. cbn [getattr].
    rewrite Hb. cbn [item0]. rewrite Hh. cbn [item0]. rewrite Hd.
    unfold Submission._create_response; run.
    eexists; eexists; split; reflexivity.
Qed.

(** The theorem above on the stand-ins *)
Lemma end_to_end_hello_witness :
  (exists resp w',
      Deployment.predict Stub.env_ok (Stub.deployed Stub.env_ok "model") "Hello" world0
      = (Return resp, w')
      /\ map out_data (infer_outputs resp) = [[Str "some thing"]])
  /\
  (exists resp w',
      Submission.predict Stub.env_ok (Stub.submitted Stub.env_ok "model") "Hello" world0
      = (Return resp, w')
      /\ map out_data (infer_outputs resp) = [[Str "Bonjour"]]).
Proof.
  destruct (end_to_end_hello Stub.env_ok) as (H1 & H2). split.
  - apply (H1 (Stub.deployed Stub.env_ok "model") Stub.tokenizer Stub.tokenizer
              Stub.translator {| hypotheses := [["Bon"; "jour"]] |} []
              ["Bon"; "jour"] [] world0); reflexivity.
  - apply (H2 (Stub.submitted Stub.env_ok "model") Stub.tokenizer
              Stub.translator {| hypotheses := [["Bon"; "jour"]] |} []
              ["Bon"; "jour"] [] world0); reflexivity.
Defined.




(** C8, as stated, fails: the first script's [preprocess] lowercases and
    does not strip.  On " Hi " it returns " hi ", which is neither the
    stripped text nor the stripped and lowercased one. *)
Lemma deployment_preprocess_keeps_whitespace :
  fst (Deployment.preprocess Stub.env_ok (Stub.deployed Stub.env_ok "model")
         (Stub.request " Hi "))
  = Return " hi "
  /\ strip (unicode Stub.env_ok) " Hi " = "Hi"
  /\ lower (unicode Stub.env_ok) (strip (unicode Stub.env_ok) " Hi ") = "hi"
  /\ Return (A := string) " hi " <> Return (strip (unicode Stub.env_ok) " Hi ")
  /\ Return (A := string) " hi "
     <> Return (lower (unicode Stub.env_ok) (strip (unicode Stub.env_ok) " Hi ")).
Proof. repeat split; try reflexivity; cbv; discriminate. Qed.

(** C8, amended.  When the first input of the request starts with a string
    [s], [preprocess] returns [s.lower()], not stripped, in the first script,
    and [s.strip()], not lowercased, in the second; the request is left as it
    was.  For a text of ASCII characters these are [s] with A-Z mapped to a-z,
    and [s] without the ASCII whitespace at its two ends; for any other text
    they are what the interpreter's Unicode tables give. *)
Theorem preprocess_first_string (env : Env) :
  forall (payload : InferRequest) (input0 : InferInput) (others : list InferInput)
         (s : string) (more : list value),
    inputs payload = input0 :: others ->
    in_data input0 = Str s :: more ->
    (forall self : Deployment.TranslationModel,
        Deployment.preprocess env self payload
        = (Return (lower (unicode env) s), payload))
    /\
    (forall self : Submission.TranslationModel,
        Submission.preprocess env self payload
        = (Return (strip (unicode env) s), payload))
    /\
    (isascii s = true ->
     lower (unicode env) s = ascii_lower s
     /\ strip (unicode env) s = ascii_strip s)
    /\
    (isascii s = false ->
     lower (unicode env) s = unicode_lower (unicode env) s
     /\ strip (unicode env) s = unicode_strip (unicode env) s).
Proof.
  intros payload input0 others s more Hin Hdata.
  split; [|split; [|split]].
  - intros self. unfold Deployment.preprocess.
    rewrite Hin; cbn [item0]; rewrite Hdata; reflexivity.
  - intros self. unfold Submission.preprocess.
    rewrite Hin; cbn [item0]; rewrite Hdata; reflexivity.
  - intros Ha. unfold lower, strip. rewrite Ha. split; reflexivity.
  - intros Ha. unfold lower, strip. rewrite Ha. split; reflexivity.
Qed.

(** The amended C8 on a request carrying " Hi " *)
Lemma preprocess_first_string_witness :
  Deployment.preprocess Stub.env_ok (Stub.deployed Stub.env_ok "model")
    (Stub.request " Hi ")
  = (Return " hi ", Stub.request " Hi ")
  /\
  Submission.preprocess Stub.env_ok (Stub.submitted Stub.env_ok "model")
    (Stub.request " Hi ")
  = (Return "Hi", Stub.request " Hi ").
Proof.
  destruct (preprocess_first_string Stub.env_ok (Stub.request " Hi ")
              {| in_name := "input-0"; in_shape := [1%Z];
                 in_datatype := "BYTES"; in_data := [Str " Hi "] |}
              [] " Hi " [] eq_refl eq_refl) as (H1 & H2 & _).
  split; [apply H1 | apply H2].
Defined.

(** C9, as stated, fails: no guard stands before [predict].  The wrappers
    below were left not ready by their constructor (the translator directory
    is missing), and [predict] runs on them to a response. *)
Lemma predict_runs_when_not_ready :
  (Deployment.ready (Stub.deployed Stub.env_no_translator "model") = false
   /\ exists w',
        Deployment.predict Stub.env_no_translator
          (Stub.deployed Stub.env_no_translator "model") "Hello" world0
        = (Return {| model_name := "model";
                     infer_outputs :=
                       [ {| out_name := "output-0"; out_shape := [1%Z];
                            out_datatype := "STR";
                            out_data := [Str "some thing"] |} ];
                     response_id := "" |}, w'))
  /\
  (Submission.ready (Stub.submitted Stub.env_no_translator "model") = false
   /\ exists w',
        Submission.predict Stub.env_no_translator
          (Stub.submitted Stub.env_no_translator "model") "Hello" world0
        = (Return {| model_name := "model";
                     infer_outputs :=
                       [ {| out_name := "output-0"; out_shape := [1%Z];
                            out_datatype := "STR";
                            out_data :=
                              [List [Str "Error: 'NoneType' object has no attribute 'translate_batch'"]] |} ];
                     response_id := "" |}, w')).
Proof. repeat split; eexists; reflexivity. Qed.

(** C9, amended.  [predict] does not read [ready]: it does the same on a
    wrapper whatever the flag says, in both scripts.  The flag is set by
    [load] alone. *)
Theorem predict_ignores_ready (env : Env) :
  (forall (self : Deployment.TranslationModel) (b : bool) (data : string) (w : World),
      Deployment.predict env (Deployment.set_ready self b) data w
      = Deployment.predict env self data w)
  /\
  (forall (self : Submission.TranslationModel) (b : bool) (data : string) (w : World),
      Submission.predict env (Submission.set_ready self b) data w
      = Submission.predict env self data w).
Proof.
  split; intros [n r m a b'] b data w; reflexivity.
Qed.

(** ** Identifiers *)


Lemma unary_injective (i j : nat) : Stub.unary i = Stub.unary j -> i = j.
Proof.
  revert j; induction i as [|i IH]; intros [|j] H; cbn in H;
    try discriminate; [reflexivity|].
  inversion H. f_equal. now apply IH.
Qed.



(** * Further properties of the two scripts *)

(** ** Loading, in detail *)

(** X1.  [load] reads the artifacts in a fixed order and stops at the first
    read that raises: what it read is the source tokenizer alone when that
    read fails, the two tokenizers when the second fails, and otherwise the
    two tokenizers and the translator directory (first script); the tokenizer
    alone when its read fails, otherwise the tokenizer and the translator
    directory (second script).  It then prints exactly one line. *)
Theorem load_reads_in_order_and_stops (env : Env) :
  (forall (self : Deployment.TranslationModel) (w : World),
      exists self' new line,
        Deployment.load env self w = (Return self', after w new)
        /\ new = filter is_open new ++ [EvPrint line]
        /\ filter is_open new
           = match spm_open env "./saved_model/checkpoint-1700/source.spm" with
             | Raise _ => [EvSpmOpen "./saved_model/checkpoint-1700/source.spm"]
             | Return _ =>
               match spm_open env "./saved_model/checkpoint-1700/target.spm" with
               | Raise _ => [EvSpmOpen "./saved_model/checkpoint-1700/source.spm";
                             EvSpmOpen "./saved_model/checkpoint-1700/target.spm"]
               | Return _ => [EvSpmOpen "./saved_model/checkpoint-1700/source.spm";
                              EvSpmOpen "./saved_model/checkpoint-1700/target.spm";
                              EvTranslatorOpen "./saved_model/checkpoint-1700" None]
               end
             end)
  /\
  (forall (self : Submission.TranslationModel) (w : World),
      exists self' new line,
        Submission.load env self w = (Return self', after w new)
        /\ new = filter is_open new ++ [EvPrint line]
        /\ filter is_open new
           = match spm_open env "./saved_model/checkpoint-618/sentencepiece.bpe.model" with
             | Raise _ =>
               [EvSpmOpen "./saved_model/checkpoint-618/sentencepiece.bpe.model"]
             | Return _ =>
               [EvSpmOpen "./saved_model/checkpoint-618/sentencepiece.bpe.model";
                EvTranslatorOpen "./saved_model/checkpoint-618"
                  (Some {| device := "cpu"; device_index := 0;
                           compute_type := "int8";
                           intra_threads := cpu_count env;
                           inter_threads := 1 |})]
             end).
Proof.
  split; intros self w.
  - unfold Deployment.load, Deployment.load_except; run.
    change (Deployment.MODEL_DIR ++ "/source.spm")%string
      with "./saved_model/checkpoint-1700/source.spm".
    change (Deployment.MODEL_DIR ++ "/target.spm")%string
      with "./saved_model/checkpoint-1700/target.spm".
    change Deployment.MODEL_DIR with "./saved_model/checkpoint-1700".
    destruct (spm_open env "./saved_model/checkpoint-1700/source.spm") as [src|e1];
      [destruct (spm_open env "./saved_model/checkpoint-1700/target.spm") as [tgt|e2];
       [destruct (translator_open env "./saved_model/checkpoint-1700" None)
          as [tr|e3]|]|];
      eexists; eexists; eexists;
      (split; [unfold after; cbn [trace uuid_calls];
               rewrite <- ?app_assoc; cbn [app]; reflexivity|]);
      split; reflexivity.
  - unfold Submission.load, Submission.load_except; run.
    change (path_join Submission.MODEL_DIR "sentencepiece.bpe.model")
      with "./saved_model/checkpoint-618/sentencepiece.bpe.model".
    change Submission.MODEL_DIR with "./saved_model/checkpoint-618".
    destruct (spm_open env "./saved_model/checkpoint-618/sentencepiece.bpe.model")
      as [sp|e1];
      [destruct (translator_open env "./saved_model/checkpoint-618" _) as [tr|e2]|];
      eexists; eexists; eexists;
      (split; [unfold after; cbn [trace uuid_calls];
               rewrite <- ?app_assoc; cbn [app]; reflexivity|]);
      split; reflexivity.
Qed.

(** X2.  [load], field by field.  The name is kept.  A handle is replaced by
    the freshly read one when its read was reached and returned, and is left
    as it was otherwise: [load] never clears a handle, so after a reload that
    fails the handles of the earlier load are still there.  [ready] is true
    exactly when every read returned, whatever it was before. *)
Theorem load_field_by_field (env : Env) :
  (forall (self : Deployment.TranslationModel) (w : World),
      exists self' w',
        Deployment.load env self w = (Return self', w')
        /\ Deployment.name self' = Deployment.name self
        /\ Deployment.sp_source_model self'
           = match spm_open env "./saved_model/checkpoint-1700/source.spm" with
             | Return src => Some src
             | Raise _ => Deployment.sp_source_model self
             end
        /\ Deployment.sp_target_model self'
           = match spm_open env "./saved_model/checkpoint-1700/source.spm",
                   spm_open env "./saved_model/checkpoint-1700/target.spm" with
             | Return _, Return tgt => Some tgt
             | _, _ => Deployment.sp_target_model self
             end
        /\ Deployment.model self'
           = match spm_open env "./saved_model/checkpoint-1700/source.spm",
                   spm_open env "./saved_model/checkpoint-1700/target.spm",
                   translator_open env "./saved_model/checkpoint-1700" None with
             | Return _, Return _, Return tr => Some tr
             | _, _, _ => Deployment.model self
             end
        /\ Deployment.ready self'
           = match spm_open env "./saved_model/checkpoint-1700/source.spm",
                   spm_open env "./saved_model/checkpoint-1700/target.spm",
                   translator_open env "./saved_model/checkpoint-1700" None with
             | Return _, Return _, Return _ => true
             | _, _, _ => false
             end)
  /\
  (forall (self : Submission.TranslationModel) (w : World),
      exists self' w',
        Submission.load env self w = (Return self', w')
        /\ Submission.name self' = Submission.name self
        /\ Submission.mpn self' = Submission.mpn self
        /\ Submission.tokenizer self'
           = match spm_open env "./saved_model/checkpoint-618/sentencepiece.bpe.model" with
             | Return sp => Some sp
             | Raise _ => Submission.tokenizer self
             end
        /\ Submission.model self'
           = match spm_open env "./saved_model/checkpoint-618/sentencepiece.bpe.model",
                   translator_open env "./saved_model/checkpoint-618"
                     (Some (Submission.translator_options env)) with
             | Return _, Return tr => Some tr
             | _, _ => Submission.model self
             end
        /\ Submission.ready self'
           = match spm_open env "./saved_model/checkpoint-618/sentencepiece.bpe.model",
                   translator_open env "./saved_model/checkpoint-618"
                     (Some (Submission.translator_options env)) with
             | Return _, Return _ => true
             | _, _ => false
             end).
Proof.
  split; intros self w.
  - unfold Deployment.load, Deployment.load_except; run.
    change (Deployment.MODEL_DIR ++ "/source.spm")%string
      with "./saved_model/checkpoint-1700/source.spm".
    change (Deployment.MODEL_DIR ++ "/target.spm")%string
      with "./saved_model/checkpoint-1700/target.spm".
    change Deployment.MODEL_DIR with "./saved_model/checkpoint-1700".
    destruct (spm_open env "./saved_model/checkpoint-1700/source.spm") as [src|e1];
      [destruct (spm_open env "./saved_model/checkpoint-1700/target.spm") as [tgt|e2];
       [destruct (translator_open env "./saved_model/checkpoint-1700" None)
          as [tr|e3]|]|];
      eexists; eexists; (split; [reflexivity|]); repeat split; reflexivity.
  - unfold Submission.load, Submission.load_except; run.
    change (path_join Submission.MODEL_DIR "sentencepiece.bpe.model")
      with "./saved_model/checkpoint-618/sentencepiece.bpe.model".
    change Submission.MODEL_DIR with "./saved_model/checkpoint-618".
    destruct (spm_open env "./saved_model/checkpoint-618/sentencepiece.bpe.model")
      as [sp|e1];
      [destruct (translator_open env "./saved_model/checkpoint-618" _) as [tr|e2]|];
      eexists; eexists; (split; [reflexivity|]); repeat split; reflexivity.
Qed.

(** X3.  What the constructor leaves behind.  It never raises and names the
    wrapper as asked; [ready] is true exactly when the translator handle is
    set; and the handles are set in the order of the reads, so a translator
    comes with every tokenizer and (first script) a target tokenizer comes
    with the source tokenizer. *)
Theorem constructor_ready_iff_translator (env : Env) (name : string) (w : World) :
  (exists self w',
      Deployment.__init__ env name w = (Return self, w')
      /\ Deployment.name self = name
      /\ Deployment.ready self
         = match Deployment.model self with Some _ => true | None => false end
      /\ match Deployment.model self with
         | Some _ => exists tgt, Deployment.sp_target_model self = Some tgt
         | None => True
         end
      /\ match Deployment.sp_target_model self with
         | Some _ => exists src, Deployment.sp_source_model self = Some src
         | None => True
         end)
  /\
  (exists self w',
      Submission.__init__ env name w = (Return self, w')
      /\ Submission.name self = name
      /\ Submission.mpn self = None
      /\ Submission.ready self
         = match Submission.model self with Some _ => true | None => false end
      /\ match Submission.model self with
         | Some _ => exists sp, Submission.tokenizer self = Some sp
         | None => True
         end).
Proof.
  split.
  - unfold Deployment.__init__, Deployment.load, Deployment.load_except; run.
    destruct (spm_open env _) as [src|e1];
      [destruct (spm_open env _) as [tgt|e2];
       [destruct (translator_open env _ _) as [tr|e3]|]|];
      eexists; eexists; (split; [reflexivity|]); cbn; repeat split; eauto.
  - unfold Submission.__init__, Submission.load, Submission.load_except; run.
    destruct (spm_open env _) as [sp|e1];
      [destruct (translator_open env _ _) as [tr|e2]|];
      eexists; eexists; (split; [reflexivity|]); cbn; repeat split; eauto.
Qed.

(** ** The second script's translation, case by case *)

(** [_translate] of the second script when the tokenizer and the translator
    are loaded and the translator returned: what is done with the results. *)
Lemma submission_translate_after_batch
    (self : Submission.TranslationModel) sp tr model text results w :
  Submission.tokenizer self = Some sp ->
  Submission.model self = Some tr ->
  translate_batch tr (submission_framed sp text)
    (Some (Submission.batch_options [["fra_Latn"]])) = Return results ->
  Submission._translate self model text w
  = (match results with
     | [] => Return (submission_error_value IndexError)
     | r :: _ =>
       match hypotheses r with
       | [] => Return (submission_error_value IndexError)
       | h :: _ =>
         match decode sp (if contains "fra_Latn" h
                          then remove_first "fra_Latn" h else h) with
         | Return t => Return (Str t)
         | Raise e => Return (submission_error_value e)
         end
       end
     end,
     after w [EvTranslateBatch (submission_framed sp text)
                (Some (Submission.batch_options [["fra_Latn"]]))]).
Proof.
  intros Hsp Hm Hb.
  rewrite (SubmissionTranslate.submission_translate_unfold self sp model text w Hsp).
  unfold Submission.translate_try. rewrite Hm, Hsp. run. cbn [getattr].
  rewrite Hb.
  destruct results as [|r rest]; [reflexivity|]. cbn [item0].
  destruct (hypotheses r) as [|h hs]; [reflexivity|]. cbn [item0].
  destruct (decode sp _); reflexivity.
Qed.

(** [predict] of the second script from what [_translate] gives *)
Lemma submission_predict_from_translate
    (env : Env) (self : Submission.TranslationModel) data w v w1 :
  Submission._translate self (Submission.model self) data w = (Return v, w1) ->
  Submission.predict env self data w
  = (Return {| model_name := Submission.name self;
               infer_outputs :=
                 [ {| out_name := "output-0"; out_shape := [1%Z];
                      out_datatype := "STR"; out_data := [v] |} ];
               response_id := uuid_at env (uuid_calls w1) |},
     {| trace := trace w1; uuid_calls := S (uuid_calls w1) |}).
Proof.
  intros Ht. unfold Submission.predict, bind. rewrite Ht.
  unfold Submission._create_response; run. reflexivity.
Qed.

(** X4.  The second script's [predict] when nothing fails, for every text:
    the translator is called once on the framed text, only the first
    hypothesis of the first result is used (the other results and hypotheses
    do not matter), the first "fra_Latn" is taken out of it, and the response
    carries the decoding of what is left, as a string, under the next
    identifier. *)
Theorem submission_predict_decodes_first_hypothesis (env : Env) :
  forall (self : Submission.TranslationModel) sp tr (data : string)
         (r : TranslationResult) (rest : list TranslationResult)
         (h : list string) (hs : list (list string)) (t : string) (w : World),
    Submission.tokenizer self = Some sp ->
    Submission.model self = Some tr ->
    translate_batch tr [["dyu_Latn"] ++ encode_as_pieces sp data ++ ["</s>"]]
      (Some (Submission.batch_options [["fra_Latn"]])) = Return (r :: rest) ->
    hypotheses r = h :: hs ->
    decode sp (if contains "fra_Latn" h then remove_first "fra_Latn" h else h)
    = Return t ->
    Submission.predict env self data w
    = (Return {| model_name := Submission.name self;
                 infer_outputs :=
                   [ {| out_name := "output-0"; out_shape := [1%Z];
                        out_datatype := "STR"; out_data := [Str t] |} ];
                 response_id := uuid_at env (uuid_calls w) |},
       {| trace := trace w
                   ++ [EvTranslateBatch
                         [["dyu_Latn"] ++ encode_as_pieces sp data ++ ["</s>"]]
                         (Some (Submission.batch_options [["fra_Latn"]]))];
          uuid_calls := S (uuid_calls w) |}).
Proof.
  intros self sp tr data r rest h hs t w Hsp Hm Hb Hh Hd.
  rewrite (submission_predict_from_translate env self data w (Str t)
             (after w [EvTranslateBatch (submission_framed sp data)
                         (Some (Submission.batch_options [["fra_Latn"]]))])).
  - reflexivity.
  - rewrite (submission_translate_after_batch self sp tr _ data (r :: rest) w Hsp Hm Hb).
    rewrite Hh, Hd. reflexivity.
Qed.

(** The theorem above on the stand-ins, with a hypothesis that starts with
    the target tag *)
Lemma submission_predict_decodes_first_hypothesis_witness :
  Submission.predict Stub.env_ok
    (Cases.submitted_with (Some Stub.tokenizer) (Some Cases.tagged_translator))
    "i ni ce" world0
  = (Return {| model_name := "model";
               infer_outputs :=
                 [ {| out_name := "output-0"; out_shape := [1%Z];
                      out_datatype := "STR"; out_data := [Str "Bonjour"] |} ];
               response_id := "" |},
     {| trace := [EvTranslateBatch [["dyu_Latn"; "i ni ce"; "</s>"]]
                    (Some (Submission.batch_options [["fra_Latn"]]))];
        uuid_calls := 1 |}).
Proof.
  exact (submission_predict_decodes_first_hypothesis Stub.env_ok
           (Cases.submitted_with (Some Stub.tokenizer) (Some Cases.tagged_translator))
           Stub.tokenizer Cases.tagged_translator "i ni ce"
           {| hypotheses := [["fra_Latn"; "Bon"; "jour"]; ["x"]] |}
           [ {| hypotheses := [] |} ] ["fra_Latn"; "Bon"; "jour"] [["x"]]
           "Bonjour" world0 eq_refl eq_refl eq_refl eq_refl eq_refl).
Defined.

(** X5.  Taking the target tag out of a hypothesis, as the second script
    does it ([if tag in h: h.remove(tag)]): exactly one occurrence goes, the
    first one, and only if there is one.  The count of the tag drops by one
    (staying zero at zero), every other piece keeps its count and its place, a
    leading tag is dropped, and a hypothesis with the tag twice still holds it
    once. *)
Theorem target_tag_removed_once :
  forall (tag : string) (h : list string),
    let h' := if contains tag h then remove_first tag h else h in
    count_occ string_dec h' tag = pred (count_occ string_dec h tag)
    /\ (forall x, x <> tag -> count_occ string_dec h' x = count_occ string_dec h x)
    /\ filter (fun x => negb (String.eqb x tag)) h'
       = filter (fun x => negb (String.eqb x tag)) h
    /\ (forall body, h = tag :: body -> h' = body)
    /\ (contains tag h = false -> h' = h /\ ~ In tag h).
Proof.
  intros tag h.
  assert (Hc : forall l, contains tag l = true ->
             count_occ string_dec (remove_first tag l) tag
             = pred (count_occ string_dec l tag)
             /\ (forall x, x <> tag ->
                   count_occ string_dec (remove_first tag l) x
                   = count_occ string_dec l x)
             /\ filter (fun x => negb (String.eqb x tag)) (remove_first tag l)
                = filter (fun x => negb (String.eqb x tag)) l).
  { induction l as [|y l IH]; cbn; [discriminate|].
    destruct (String.eqb_spec y tag) as [->|Hne]; intros Hin.
    - split; [|split].
      + destruct (string_dec tag tag); [reflexivity|congruence].
      + intros x Hx. destruct (string_dec tag x); [congruence|reflexivity].
      + reflexivity.
    - destruct (IH Hin) as (I1 & I2 & I3). split; [|split].
      + cbn. destruct (string_dec y tag); [congruence|exact I1].
      + intros x Hx. cbn. destruct (string_dec y x); [f_equal|]; now apply I2.
      + cbn. destruct (String.eqb_spec y tag); [congruence|]. cbn. now rewrite I3. }
  assert (Hn : forall l, contains tag l = false -> ~ In tag l).
  { induction l as [|y l IH]; cbn; [tauto|].
    destruct (String.eqb_spec y tag) as [->|Hne]; [discriminate|].
    intros Hl [?|?]; [congruence|]. now apply IH. }
  cbv zeta. destruct (contains tag h) eqn:E.
  - destruct (Hc h E) as (H1 & H2 & H3). repeat split; try assumption.
    + intros body ->. cbn. now rewrite String.eqb_refl.
    + discriminate.
    + discriminate.
  - pose proof (Hn h E) as Hnot. repeat split; try reflexivity.
    + rewrite (proj1 (count_occ_not_In string_dec h tag) Hnot). reflexivity.
    + intros body ->. exfalso. apply Hnot. now left.
    + exact Hnot.
Qed.

(** The theorem above on a hypothesis that holds the tag twice *)
Lemma target_tag_removed_once_witness :
  (if contains "fra_Latn" ["fra_Latn"; "Bon"; "fra_Latn"; "jour"]
   then remove_first "fra_Latn" ["fra_Latn"; "Bon"; "fra_Latn"; "jour"]
   else ["fra_Latn"; "Bon"; "fra_Latn"; "jour"])
  = ["Bon"; "fra_Latn"; "jour"].
Proof.
  apply (proj1 (proj2 (proj2 (proj2
           (target_tag_removed_once "fra_Latn"
              ["fra_Latn"; "Bon"; "fra_Latn"; "jour"]))))
           ["Bon"; "fra_Latn"; "jour"]).
  reflexivity.
Defined.

(** X6.  The second script's [predict] at the edges of the [try], with the
    tokenizer loaded.  No translator: the response carries the text of the
    [AttributeError] and the translator is not called.  The translator returns
    no result, or a first result without hypothesis: the response carries
    "Error: list index out of range".  Decoding raises [e]: the response
    carries "Error: " and the text of [e].  Each time the error text comes
    wrapped in a list, and [predict] returns. *)
Theorem submission_predict_error_payloads (env : Env) :
  (forall (self : Submission.TranslationModel) sp (data : string) (w : World),
      Submission.tokenizer self = Some sp ->
      Submission.model self = None ->
      Submission.predict env self data w
      = (Return {| model_name := Submission.name self;
                   infer_outputs :=
                     [ {| out_name := "output-0"; out_shape := [1%Z];
                          out_datatype := "STR";
                          out_data :=
                            [List [Str "Error: 'NoneType' object has no attribute 'translate_batch'"]] |} ];
                   response_id := uuid_at env (uuid_calls w) |},
         {| trace := trace w; uuid_calls := S (uuid_calls w) |}))
  /\
  (forall (self : Submission.TranslationModel) sp tr (data : string)
          (results : list TranslationResult) (w : World),
      Submission.tokenizer self = Some sp ->
      Submission.model self = Some tr ->
      translate_batch tr [["dyu_Latn"] ++ encode_as_pieces sp data ++ ["</s>"]]
        (Some (Submission.batch_options [["fra_Latn"]])) = Return results ->
      (results = [] \/ exists rest, results = {| hypotheses := [] |} :: rest) ->
      exists resp w',
        Submission.predict env self data w = (Return resp, w')
        /\ map out_data (infer_outputs resp)
           = [[List [Str "Error: list index out of range"]]])
  /\
  (forall (self : Submission.TranslationModel) sp tr (data : string)
          r rest h hs (e : exn) (w : World),
      Submission.tokenizer self = Some sp ->
      Submission.model self = Some tr ->
      translate_batch tr [["dyu_Latn"] ++ encode_as_pieces sp data ++ ["</s>"]]
        (Some (Submission.batch_options [["fra_Latn"]])) = Return (r :: rest) ->
      hypotheses r = h :: hs ->
      decode sp (if contains "fra_Latn" h then remove_first "fra_Latn" h else h)
      = Raise e ->
      exists resp w',
        Submission.predict env self data w = (Return resp, w')
        /\ map out_data (infer_outputs resp)
           = [[List [Str ("Error: " ++ exn_str e)]]]).
Proof.
  split; [|split].
  - intros self sp data w Hsp Hm.
    rewrite (submission_predict_from_translate env self data w
               (submission_error_value (AttributeError_None "translate_batch")) w).
    + destruct w; reflexivity.
    + rewrite (SubmissionTranslate.submission_translate_unfold self sp _ data w Hsp).
      now rewrite (SubmissionTranslate.submission_translate_try_none self _ _ w Hm).
  - intros self sp tr data results w Hsp Hm Hb Hempty.
    pose proof (submission_translate_after_batch self sp tr (Submission.model self)
                  data results w Hsp Hm Hb) as Ht.
    assert (Hv : Submission._translate self (Submission.model self) data w
                 = (Return (submission_error_value IndexError),
                    after w [EvTranslateBatch (submission_framed sp data)
                               (Some (Submission.batch_options [["fra_Latn"]]))])).
    { rewrite Ht. destruct Hempty as [->|(rest & ->)]; reflexivity. }
    rewrite (submission_predict_from_translate env self data w _ _ Hv).
    eexists; eexists; split; reflexivity.
  - intros self sp tr data r rest h hs e w Hsp Hm Hb Hh Hd.
    assert (Hv : Submission._translate self (Submission.model self) data w
                 = (Return (submission_error_value e),
                    after w [EvTranslateBatch (submission_framed sp data)
                               (Some (Submission.batch_options [["fra_Latn"]]))])).
    { rewrite (submission_translate_after_batch self sp tr _ data (r :: rest) w
                 Hsp Hm Hb).
      rewrite Hh, Hd. reflexivity. }
    rewrite (submission_predict_from_translate env self data w _ _ Hv).
    eexists; eexists; split; reflexivity.
Qed.

(** The theorem above on the stand-ins: a wrapper without translator, a
    translator that returns nothing, and a tokenizer that cannot decode *)
Lemma submission_predict_error_payloads_witness :
  (exists resp w',
      Submission.predict Stub.env_ok (Stub.submitted Stub.env_no_translator "model")
        "i ni ce" world0 = (Return resp, w')
      /\ map out_data (infer_outputs resp)
         = [[List [Str "Error: 'NoneType' object has no attribute 'translate_batch'"]]]
      /\ trace w' = [])
  /\
  (exists resp w',
      Submission.predict Stub.env_ok
        (Cases.submitted_with (Some Stub.tokenizer) (Some Cases.empty_translator))
        "i ni ce" world0 = (Return resp, w')
      /\ map out_data (infer_outputs resp)
         = [[List [Str "Error: list index out of range"]]])
  /\
  (exists resp w',
      Submission.predict Stub.env_ok
        (Cases.submitted_with (Some Cases.mute_tokenizer) (Some Stub.translator))
        "i ni ce" world0 = (Return resp, w')
      /\ map out_data (infer_outputs resp)
         = [[List [Str "Error: bad piece"]]]).
Proof.
  destruct (submission_predict_error_payloads Stub.env_ok) as (H1 & H2 & H3).
  split; [|split].
  - rewrite (H1 (Stub.submitted Stub.env_no_translator "model") Stub.tokenizer
               "i ni ce" world0 eq_refl eq_refl).
    eexists; eexists; repeat split; reflexivity.
  - apply (H2 (Cases.submitted_with (Some Stub.tokenizer) (Some Cases.empty_translator))
              Stub.tokenizer Cases.empty_translator "i ni ce" [] world0);
      try reflexivity. now left.
  - apply (H3 (Cases.submitted_with (Some Cases.mute_tokenizer) (Some Stub.translator))
              Cases.mute_tokenizer Stub.translator "i ni ce"
              {| hypotheses := [["Bon"; "jour"]] |} []
              ["Bon"; "jour"] [] (Exn "RuntimeError" "bad piece") world0);
      reflexivity.
Defined.

(** ** What a request does to the surroundings *)

(** The events of [predict] in the first script, with the source tokenizer
    loaded: the print of the sentence, then the translator call if there is a
    translator, then the error print if the [try] raised. *)
Lemma deployment_predict_trace
    (env : Env) (self : Deployment.TranslationModel) sp data w :
  Deployment.sp_source_model self = Some sp ->
  exists resp new,
    Deployment.predict env self data w
    = (Return resp,
       {| trace := trace w ++ EvPrint [PrVal (List [Str (strip (unicode env) data)])] :: new;
          uuid_calls := S (uuid_calls w) |})
    /\ response_id resp = uuid_at env (uuid_calls w)
    /\ match Deployment.model self with
       | None => new = [deployment_error_print (AttributeError_None "translate_batch")]
       | Some _ =>
         new = [EvTranslateBatch (deployment_framed sp (strip (unicode env) data) []) None]
         \/ exists e,
             new = [EvTranslateBatch (deployment_framed sp (strip (unicode env) data) []) None;
                    deployment_error_print e]
       end.
Proof.
  intros Hsp. unfold Deployment.predict.
  unfold bind at 1. unfold print. rewrite emit_after.
  unfold bind at 1.
  rewrite (DeploymentTranslate.deployment_translate_unfold self sp _ _ [] _ Hsp).
  cbn [map].
  destruct (Deployment.model self) as [tr|].
  - pose proof (DeploymentTranslate.deployment_translate_try_world self tr
                  (deployment_framed sp (strip (unicode env) data) [])
                  (after w [EvPrint [PrVal (List [Str (strip (unicode env) data)])]])) as Hw.
    destruct (Deployment.translate_try self (Some tr) _ _) as [[v|e] w1];
      cbn [snd] in Hw; subst w1; unfold Deployment._create_response; run;
      cbn [item0]; eexists; eexists.
    + split; [unfold after; cbn [trace uuid_calls]; rewrite <- !app_assoc;
              reflexivity|].
      split; [reflexivity|left; reflexivity].
    + split; [unfold after; cbn [trace uuid_calls]; rewrite <- !app_assoc;
              reflexivity|].
      split; [reflexivity|right; exists e; reflexivity].
  - rewrite DeploymentTranslate.deployment_translate_try_none.
    unfold Deployment._create_response; run; cbn [item0]; eexists; eexists.
    split; [unfold after; cbn [trace uuid_calls]; rewrite <- !app_assoc;
            reflexivity|].
    split; reflexivity.
Qed.

(** The events of [predict] in the second script, with the tokenizer loaded:
    the translator call if there is a translator, and nothing else. *)
Lemma submission_predict_trace
    (env : Env) (self : Submission.TranslationModel) sp data w :
  Submission.tokenizer self = Some sp ->
  exists resp,
    Submission.predict env self data w
    = (Return resp,
       {| trace := trace w
                   ++ match Submission.model self with
                      | None => []
                      | Some _ =>
                        [EvTranslateBatch (submission_framed sp data)
                           (Some (Submission.batch_options [["fra_Latn"]]))]
                      end;
          uuid_calls := S (uuid_calls w) |})
    /\ response_id resp = uuid_at env (uuid_calls w).
Proof.
  intros Hsp.
  destruct (Submission.model self) as [tr|] eqn:Hm.
  - pose proof (SubmissionTranslate.submission_translate_try_world self tr
                  (submission_framed sp data) [["fra_Latn"]] w Hm) as Hw.
    pose proof (SubmissionTranslate.submission_translate_unfold self sp
                  (Submission.model self) data w Hsp) as Hu.
    destruct (Submission.translate_try self _ _ w) as [[v|e] w1];
      cbn [snd] in Hw; subst w1;
      rewrite Hm in Hu;
      rewrite (submission_predict_from_translate env self data w _ _
                 ltac:(rewrite Hm; exact Hu));
      eexists; split; reflexivity.
  - pose proof (SubmissionTranslate.submission_translate_unfold self sp
                  (Submission.model self) data w Hsp) as Hu.
    rewrite (SubmissionTranslate.submission_translate_try_none self _ _ w Hm) in Hu.
    rewrite (submission_predict_from_translate env self data w _ _ Hu).
    rewrite app_nil_r. eexists; split; reflexivity.
Qed.

(** X7.  What one call of [predict] does to its surroundings, on any
    wrapper.  It reads nothing from disk.  It calls the batch translator once
    when the tokenizer that encodes the text and the translator are both
    loaded, and not at all otherwise.  It takes one identifier from the
    generator when it returns a response and none when it raises. *)
Theorem predict_effects (env : Env) :
  (forall (self : Deployment.TranslationModel) (data : string) (w : World),
      exists o new,
        Deployment.predict env self data w
        = (o, {| trace := trace w ++ new;
                 uuid_calls := uuid_calls w
                               + match o with Return _ => 1 | Raise _ => 0 end |})
        /\ filter is_open new = []
        /\ length (filter is_translate_batch new)
           = match Deployment.sp_source_model self, Deployment.model self with
             | Some _, Some _ => 1
             | _, _ => 0
             end)
  /\
  (forall (self : Submission.TranslationModel) (data : string) (w : World),
      exists o new,
        Submission.predict env self data w
        = (o, {| trace := trace w ++ new;
                 uuid_calls := uuid_calls w
                               + match o with Return _ => 1 | Raise _ => 0 end |})
        /\ filter is_open new = []
        /\ length (filter is_translate_batch new)
           = match Submission.tokenizer self, Submission.model self with
             | Some _, Some _ => 1
             | _, _ => 0
             end).
Proof.
  split; intros self data w.
  - destruct (Deployment.sp_source_model self) as [sp|] eqn:Hsp.
    + destruct (deployment_predict_trace env self sp data w Hsp)
        as (resp & new & Hp & _ & Hnew).
      exists (Return resp), (EvPrint [PrVal (List [Str (strip (unicode env) data)])] :: new).
      rewrite Hp, Nat.add_1_r. split; [reflexivity|].
      destruct (Deployment.model self) as [tr|].
      * destruct Hnew as [->|(e & ->)]; split; reflexivity.
      * subst new. split; reflexivity.
    + exists (Raise (AttributeError_None "encode")),
             [EvPrint [PrVal (List [Str (strip (unicode env) data)])]].
      rewrite Nat.add_0_r. split; [|split; reflexivity].
      unfold Deployment.predict, bind, print. rewrite emit_after.
      rewrite (DeploymentTranslate.deployment_translate_no_tokenizer self _ _ _ Hsp).
      reflexivity.
  - destruct (Submission.tokenizer self) as [sp|] eqn:Hsp.
    + destruct (submission_predict_trace env self sp data w Hsp) as (resp & Hp & _).
      exists (Return resp). eexists. rewrite Hp, Nat.add_1_r.
      split; [reflexivity|].
      destruct (Submission.model self); split; reflexivity.
    + exists (Raise (AttributeError_None "encode_as_pieces")), [].
      rewrite Nat.add_0_r, app_nil_r. split; [|split; reflexivity].
      unfold Submission.predict, bind.
      rewrite (SubmissionTranslate.submission_translate_no_tokenizer self _ _ _ Hsp).
      destruct w; reflexivity.
Qed.

(** ** Requests in a row *)

(** A run of calls that each take the next identifier: the identifiers of
    the results are those the generator hands out from the current count
    on. *)
Lemma for_each_takes_ids {A : Type} (env : Env) (f : A -> M InferResponse) :
  (forall a w, exists r w',
      f a w = (Return r, w')
      /\ uuid_calls w' = S (uuid_calls w)
      /\ response_id r = uuid_at env (uuid_calls w)) ->
  forall l w, exists rs w',
    for_each f l w = (Return rs, w')
    /\ uuid_calls w' = uuid_calls w + length l
    /\ map response_id rs = map (uuid_at env) (seq (uuid_calls w) (length l)).
Proof.
  intros Hf l; induction l as [|a l IH]; intros w; cbn [for_each].
  - exists [], w. repeat split. cbn. lia.
  - destruct (Hf a w) as (r & w1 & Hr & Hc & Hid).
    destruct (IH w1) as (rs & w2 & Hrs & Hc2 & Hids).
    exists (r :: rs), w2. unfold bind at 1. rewrite Hr.
    unfold bind at 1. rewrite Hrs. split; [reflexivity|]. split.
    + rewrite Hc2, Hc. cbn. lia.
    + cbn. rewrite Hid, Hids, Hc. reflexivity.
Qed.

(** X8.  Requests served in a row by one wrapper whose tokenizer is
    loaded: every request gets its response, the k-th response carries the
    k-th identifier the generator hands out from then on, and so, with a
    generator that never repeats itself, no two of the responses share an
    identifier, whatever the texts and whatever the translator does. *)
Theorem responses_in_a_row_have_own_ids (env : Env) :
  (forall (self : Deployment.TranslationModel) sp (texts : list string) (w : World),
      Deployment.sp_source_model self = Some sp ->
      exists rs w',
        for_each (Deployment.predict env self) texts w = (Return rs, w')
        /\ length rs = length texts
        /\ map response_id rs
           = map (uuid_at env) (seq (uuid_calls w) (length texts))
        /\ ((forall i j : nat, uuid_at env i = uuid_at env j -> i = j) ->
            NoDup (map response_id rs)))
  /\
  (forall (self : Submission.TranslationModel) sp (texts : list string) (w : World),
      Submission.tokenizer self = Some sp ->
      exists rs w',
        for_each (Submission.predict env self) texts w = (Return rs, w')
        /\ length rs = length texts
        /\ map response_id rs
           = map (uuid_at env) (seq (uuid_calls w) (length texts))
        /\ ((forall i j : nat, uuid_at env i = uuid_at env j -> i = j) ->
            NoDup (map response_id rs))).
Proof.
  assert (Hrun : forall f : string -> M InferResponse,
             (forall a w, exists r w',
                 f a w = (Return r, w')
                 /\ uuid_calls w' = S (uuid_calls w)
                 /\ response_id r = uuid_at env (uuid_calls w)) ->
             forall texts w, exists rs w',
               for_each f texts w = (Return rs, w')
               /\ length rs = length texts
               /\ map response_id rs
                  = map (uuid_at env) (seq (uuid_calls w) (length texts))
               /\ ((forall i j : nat, uuid_at env i = uuid_at env j -> i = j) ->
                   NoDup (map response_id rs))).
  { intros f Hf texts w.
    destruct (for_each_takes_ids env f Hf texts w) as (rs & w' & Hrs & _ & Hids).
    exists rs, w'. split; [exact Hrs|]. split; [|split; [exact Hids|]].
    - rewrite <- (length_map response_id rs), Hids, length_map. apply length_seq.
    - intros Hfresh. rewrite Hids.
      apply NoDup_map_NoDup_ForallPairs; [|apply seq_NoDup].
      intros i j _ _. apply Hfresh. }
  split; intros self sp texts w Hsp; apply Hrun; intros a w0.
  - destruct (deployment_predict_trace env self sp a w0 Hsp)
      as (resp & new & Hp & Hid & _).
    rewrite Hp. eexists; eexists; repeat split. exact Hid.
  - destruct (submission_predict_trace env self sp a w0 Hsp) as (resp & Hp & Hid).
    rewrite Hp. eexists; eexists; repeat split. exact Hid.
Qed.

(** The theorem above on the stand-ins: three requests, two of them with
    the same text *)
Lemma responses_in_a_row_have_own_ids_witness :
  (exists rs w',
      for_each (Deployment.predict Stub.env_ok (Stub.deployed Stub.env_ok "model"))
        ["i ni ce"; "i ni ce"; "a ni sogoma"] world0 = (Return rs, w')
      /\ map response_id rs = [""; "1"; "11"]
      /\ NoDup (map response_id rs))
  /\
  (exists rs w',
      for_each (Submission.predict Stub.env_ok
                  (Stub.submitted Stub.env_no_translator "model"))
        ["i ni ce"; "i ni ce"; "a ni sogoma"] world0 = (Return rs, w')
      /\ map response_id rs = [""; "1"; "11"]
      /\ NoDup (map response_id rs)).
Proof.
  destruct (responses_in_a_row_have_own_ids Stub.env_ok) as (H1 & H2). split.
  - destruct (H1 (Stub.deployed Stub.env_ok "model") Stub.tokenizer
                ["i ni ce"; "i ni ce"; "a ni sogoma"] world0 eq_refl)
      as (rs & w' & Hr & _ & Hids & Hnd).
    exists rs, w'. split; [exact Hr|]. split; [exact Hids|].
    apply Hnd. exact unary_injective.
  - destruct (H2 (Stub.submitted Stub.env_no_translator "model") Stub.tokenizer
                ["i ni ce"; "i ni ce"; "a ni sogoma"] world0 eq_refl)
      as (rs & w' & Hr & _ & Hids & Hnd).
    exists rs, w'. split; [exact Hr|]. split; [exact Hids|].
    apply Hnd. exact unary_injective.
Defined.

(** ** The text that reaches the tokenizer *)

Module Text.

Lemma append_nil_r (a : string) : (a ++ "")%string = a.
Proof. induction a as [|c a IH]; cbn; [reflexivity|now rewrite IH]. Qed.

Lemma append_assoc (a b c : string) :
  ((a ++ b) ++ c)%string = (a ++ (b ++ c))%string.
Proof. induction a as [|x a IH]; cbn; [reflexivity|now rewrite IH]. Qed.

Lemma rev_string_acc (s acc : string) :
  rev_string s acc = (rev_string s "" ++ acc)%string.
Proof.
  revert acc; induction s as [|c s IH]; intros acc; cbn; [reflexivity|].
  rewrite (IH (String c acc)), (IH (String c "")), append_assoc. reflexivity.
Qed.

Lemma rev_string_append (a b : string) :
  rev_string (a ++ b) "" = (rev_string b "" ++ rev_string a "")%string.
Proof.
  induction a as [|c a IH]; cbn.
  - now rewrite append_nil_r.
  - rewrite (rev_string_acc (a ++ b)), IH, (rev_string_acc a (String c "")).
    now rewrite append_assoc.
Qed.

Lemma rev_string_involutive (s : string) : rev_string (rev_string s "") "" = s.
Proof.
  induction s as [|c s IH]; cbn; [reflexivity|].
  rewrite (rev_string_acc s), rev_string_append, IH. reflexivity.
Qed.

Lemma isspace_lower_char (c : ascii) : isspace (lower_char c) = isspace c.
Proof. destruct c as [[] [] [] [] [] [] [] []]; reflexivity. Qed.

Lemma lower_char_idempotent (c : ascii) : lower_char (lower_char c) = lower_char c.
Proof. destruct c as [[] [] [] [] [] [] [] []]; reflexivity. Qed.

Lemma isascii_lower_char (c : ascii) :
  isascii_char (lower_char c) = isascii_char c.
Proof. destruct c as [[] [] [] [] [] [] [] []]; reflexivity. Qed.

Lemma ascii_lower_idempotent (s : string) :
  ascii_lower (ascii_lower s) = ascii_lower s.
Proof.
  induction s as [|c s IH]; cbn [ascii_lower]; [reflexivity|].
  now rewrite lower_char_idempotent, IH.
Qed.

Lemma ascii_lower_lstrip (s : string) :
  ascii_lower (lstrip s) = lstrip (ascii_lower s).
Proof.
  induction s as [|c s IH]; cbn [ascii_lower lstrip]; [reflexivity|].
  rewrite isspace_lower_char. destruct (isspace c); [exact IH|reflexivity].
Qed.

Lemma ascii_lower_rev_string (s acc : string) :
  ascii_lower (rev_string s acc) = rev_string (ascii_lower s) (ascii_lower acc).
Proof.
  revert acc; induction s as [|c s IH]; intros acc; cbn [ascii_lower rev_string];
    [reflexivity|].
  now rewrite IH.
Qed.

Lemma ascii_lower_strip (s : string) :
  ascii_lower (ascii_strip s) = ascii_strip (ascii_lower s).
Proof.
  unfold ascii_strip, rstrip.
  rewrite ascii_lower_rev_string, ascii_lower_lstrip, ascii_lower_rev_string,
    ascii_lower_lstrip.
  reflexivity.
Qed.

Lemma lstrip_idempotent (s : string) : lstrip (lstrip s) = lstrip s.
Proof.
  induction s as [|c s IH]; cbn [lstrip]; [reflexivity|].
  destruct (isspace c) eqn:E; [exact IH|]. cbn [lstrip]. now rewrite E.
Qed.

Lemma lstrip_length (s : string) : String.length (lstrip s) <= String.length s.
Proof.
  induction s as [|c s IH]; cbn [lstrip String.length]; [lia|].
  destruct (isspace c); cbn [String.length]; lia.
Qed.

(** A text without leading whitespace is empty or starts with a character
    that is not whitespace. *)
Lemma lstrip_fixed (s : string) :
  lstrip s = s ->
  s = "" \/ exists c s', s = String c s' /\ isspace c = false.
Proof.
  destruct s as [|c s']; [now left|]. cbn [lstrip].
  destruct (isspace c) eqn:E; intros H.
  - pose proof (lstrip_length s') as Hl. rewrite H in Hl. cbn in Hl. lia.
  - right. now exists c, s'.
Qed.

Lemma lstrip_append_char (u : string) (c : ascii) :
  isspace c = false ->
  lstrip (u ++ String c "") = (lstrip u ++ String c "")%string.
Proof.
  intros Hc. induction u as [|d u IH]; cbn; [now rewrite Hc|].
  destruct (isspace d); [exact IH|reflexivity].
Qed.

Lemma rstrip_cons (c : ascii) (t : string) :
  isspace c = false -> rstrip (String c t) = String c (rstrip t).
Proof.
  intros Hc. unfold rstrip. cbn [rev_string].
  rewrite (rev_string_acc t (String c "")), (lstrip_append_char _ c Hc).
  rewrite rev_string_append. reflexivity.
Qed.

Lemma rstrip_idempotent (s : string) : rstrip (rstrip s) = rstrip s.
Proof.
  unfold rstrip. now rewrite rev_string_involutive, lstrip_idempotent.
Qed.

Lemma lstrip_ascii_strip (s : string) : lstrip (ascii_strip s) = ascii_strip s.
Proof.
  unfold ascii_strip.
  destruct (lstrip_fixed (lstrip s) (lstrip_idempotent s))
    as [->|(c & t & -> & Hc)]; [reflexivity|].
  rewrite (rstrip_cons c t Hc). cbn [lstrip]. now rewrite Hc.
Qed.

Lemma rstrip_ascii_strip (s : string) : rstrip (ascii_strip s) = ascii_strip s.
Proof. unfold ascii_strip. apply rstrip_idempotent. Qed.

Lemma ascii_strip_idempotent (s : string) :
  ascii_strip (ascii_strip s) = ascii_strip s.
Proof.
  unfold ascii_strip at 1. rewrite lstrip_ascii_strip. apply rstrip_ascii_strip.
Qed.

(** The ASCII tables stay within ASCII text. *)
Lemma isascii_ascii_lower (s : string) : isascii (ascii_lower s) = isascii s.
Proof.
  induction s as [|c s IH]; cbn [ascii_lower isascii]; [reflexivity|].
  now rewrite isascii_lower_char, IH.
Qed.

Lemma isascii_lstrip (s : string) : isascii s = true -> isascii (lstrip s) = true.
Proof.
  induction s as [|c s IH]; cbn [lstrip]; [trivial|].
  destruct (isspace c); [|trivial].
  cbn [isascii]. intros H. apply andb_prop in H. now apply IH.
Qed.

Lemma isascii_rev_string (s acc : string) :
  isascii (rev_string s acc) = isascii s && isascii acc.
Proof.
  revert acc; induction s as [|c s IH]; intros acc; cbn [rev_string isascii];
    [reflexivity|].
  rewrite IH. cbn [isascii].
  destruct (isascii_char c), (isascii s), (isascii acc); reflexivity.
Qed.

Lemma isascii_ascii_strip (s : string) :
  isascii s = true -> isascii (ascii_strip s) = true.
Proof.
  intros H. unfold ascii_strip, rstrip.
  rewrite isascii_rev_string, Bool.andb_true_r.
  apply isascii_lstrip. rewrite isascii_rev_string, Bool.andb_true_r.
  now apply isascii_lstrip.
Qed.

(** On ASCII text [str.lower] and [str.strip] are the ASCII tables. *)
Lemma lower_of_ascii (u : Unicode) (s : string) :
  isascii s = true -> lower u s = ascii_lower s.
Proof. intros H. unfold lower. now rewrite H. Qed.

Lemma strip_of_ascii (u : Unicode) (s : string) :
  isascii s = true -> strip u s = ascii_strip s.
Proof. intros H. unfold strip. now rewrite H. Qed.

End Text.

(** X9.  From the request to the tokenizer, for a request whose first
    string [s] is ASCII text.  With the handles loaded, the text [t] that
    [predict] has encoded, out of what [preprocess] returned, is [s]
    lowercased and stripped in the first script (in either order: on ASCII
    text the two commute) and [s] stripped in the second.  In both [t] is
    ASCII text without ASCII whitespace at either end, and stripping it again
    changes nothing; in the first script lowercasing it again changes nothing
    either. *)
Theorem request_text_normalised (env : Env) :
  forall (payload : InferRequest) (input0 : InferInput) (others : list InferInput)
         (s : string) (more : list value),
    inputs payload = input0 :: others ->
    in_data input0 = Str s :: more ->
    isascii s = true ->
    (forall (self : Deployment.TranslationModel) sp tr (w : World),
        Deployment.sp_source_model self = Some sp ->
        Deployment.model self = Some tr ->
        exists t0 t resp w' rest,
          Deployment.preprocess env self payload = (Return t0, payload)
          /\ Deployment.predict env self t0 w = (Return resp, w')
          /\ trace w'
             = trace w
               ++ EvPrint [PrVal (List [Str t])]
               :: EvTranslateBatch
                    [["dyu"] ++ encode_as_pieces sp t ++ ["</s>"; "fr"]] None
               :: rest
          /\ t = strip (unicode env) (lower (unicode env) s)
          /\ t = lower (unicode env) (strip (unicode env) s)
          /\ t = ascii_strip (ascii_lower s)
          /\ isascii t = true
          /\ strip (unicode env) t = t /\ lstrip t = t /\ rstrip t = t
          /\ lower (unicode env) t = t)
    /\
    (forall (self : Submission.TranslationModel) sp tr (w : World),
        Submission.tokenizer self = Some sp ->
        Submission.model self = Some tr ->
        exists t resp w',
          Submission.preprocess env self payload = (Return t, payload)
          /\ Submission.predict env self t w = (Return resp, w')
          /\ trace w'
             = trace w
               ++ [EvTranslateBatch
                     [["dyu_Latn"] ++ encode_as_pieces sp t ++ ["</s>"]]
                     (Some (Submission.batch_options [["fra_Latn"]]))]
          /\ t = strip (unicode env) s
          /\ t = ascii_strip s
          /\ isascii t = true
          /\ strip (unicode env) t = t /\ lstrip t = t /\ rstrip t = t).
Proof.
  intros payload input0 others s more Hin Hdata Ha.
  set (u := unicode env).
  assert (Hl : lower u s = ascii_lower s) by now apply Text.lower_of_ascii.
  assert (Hal : isascii (ascii_lower s) = true)
    by now rewrite Text.isascii_ascii_lower.
  assert (Hsl : strip u (lower u s) = ascii_strip (ascii_lower s)).
  { rewrite Hl. now apply Text.strip_of_ascii. }
  assert (Hat : isascii (ascii_strip (ascii_lower s)) = true)
    by now apply Text.isascii_ascii_strip.
  assert (Hs : strip u s = ascii_strip s) by now apply Text.strip_of_ascii.
  assert (Has : isascii (ascii_strip s) = true) by now apply Text.isascii_ascii_strip.
  split.
  - intros self sp tr w Hsp Hm.
    destruct (deployment_predict_trace env self sp (lower u s) w Hsp)
      as (resp & new & Hp & _ & Hnew).
    rewrite Hm in Hnew. fold u in Hp, Hnew.
    exists (lower u s), (strip u (lower u s)), resp. eexists.
    exists (match new with _ :: rest => rest | [] => [] end).
    split.
    { unfold Deployment.preprocess. rewrite Hin. cbn [item0]. now rewrite Hdata. }
    split; [exact Hp|]. split.
    { cbn [trace]. destruct Hnew as [->|(e & ->)]; reflexivity. }
    split; [reflexivity|]. rewrite Hsl. split.
    { rewrite Hs, (Text.lower_of_ascii u _ Has). symmetry. apply Text.ascii_lower_strip. }
    split; [reflexivity|]. split; [exact Hat|].
    split; [rewrite (Text.strip_of_ascii u _ Hat); apply Text.ascii_strip_idempotent|].
    split; [apply Text.lstrip_ascii_strip|].
    split; [apply Text.rstrip_ascii_strip|].
    rewrite (Text.lower_of_ascii u _ Hat), <- Text.ascii_lower_strip,
      Text.ascii_lower_idempotent.
    reflexivity.
  - intros self sp tr w Hsp Hm.
    destruct (submission_predict_trace env self sp (strip u s) w Hsp)
      as (resp & Hp & _).
    rewrite Hm in Hp.
    exists (strip u s), resp. eexists.
    split.
    { unfold Submission.preprocess. rewrite Hin. cbn [item0]. now rewrite Hdata. }
    split; [exact Hp|]. split; [reflexivity|]. split; [reflexivity|].
    rewrite Hs. split; [reflexivity|]. split; [exact Has|].
    split; [rewrite (Text.strip_of_ascii u _ Has); apply Text.ascii_strip_idempotent|].
    split; [apply Text.lstrip_ascii_strip|apply Text.rstrip_ascii_strip].
Qed.

(** The theorem above on the stand-ins and a request that carries
    "  I Ni Ce " *)
Lemma request_text_normalised_witness :
  (exists resp w' rest,
      Deployment.preprocess Stub.env_ok (Stub.deployed Stub.env_ok "model")
        (Stub.request "  I Ni Ce ") = (Return "  i ni ce ", Stub.request "  I Ni Ce ")
      /\ Deployment.predict Stub.env_ok (Stub.deployed Stub.env_ok "model")
           "  i ni ce " world0 = (Return resp, w')
      /\ trace w'
         = EvPrint [PrVal (List [Str "i ni ce"])]
           :: EvTranslateBatch [["dyu"; "i ni ce"; "</s>"; "fr"]] None :: rest)
  /\
  (exists resp w',
      Submission.preprocess Stub.env_ok (Stub.submitted Stub.env_ok "model")
        (Stub.request "  I Ni Ce ") = (Return "I Ni Ce", Stub.request "  I Ni Ce ")
      /\ Submission.predict Stub.env_ok (Stub.submitted Stub.env_ok "model")
           "I Ni Ce" world0 = (Return resp, w')
      /\ trace w'
         = [EvTranslateBatch [["dyu_Latn"; "I Ni Ce"; "</s>"]]
              (Some (Submission.batch_options [["fra_Latn"]]))]).
Proof.
  destruct (request_text_normalised Stub.env_ok (Stub.request "  I Ni Ce ")
              {| in_name := "input-0"; in_shape := [1%Z];
                 in_datatype := "BYTES"; in_data := [Str "  I Ni Ce "] |}
              [] "  I Ni Ce " [] eq_refl eq_refl eq_refl) as (H1 & H2).
  split.
  - destruct (H1 (Stub.deployed Stub.env_ok "model") Stub.tokenizer Stub.translator
                world0 eq_refl eq_refl)
      as (t0 & t & resp & w' & rest & Hpre & Hp & Ht & Et & _).
    assert (Et0 : t0 = "  i ni ce ").
    { cbv in Hpre. now inversion Hpre. }
    subst t0 t. exists resp, w', rest. split; [reflexivity|]. split; [exact Hp|].
    exact Ht.
  - destruct (H2 (Stub.submitted Stub.env_ok "model") Stub.tokenizer Stub.translator
                world0 eq_refl eq_refl)
      as (t & resp & w' & Hpre & Hp & Ht & Et & _).
    subst t. exists resp, w'. split; [reflexivity|]. split; [exact Hp|]. exact Ht.
Defined.

(** ** The command line and the start-up *)

Module CliFacts.

Import Cli.

Lemma registered_unfold (actions : list Action) (o : string) :
  registered actions o
  = existsb (fun action => contains o (option_strings action)) actions.
Proof. reflexivity. Qed.

Lemma registrations_zero (actions : list Action) (o : string) :
  registered actions o = false -> registrations actions o = 0.
Proof.
  unfold registered, registrations.
  induction actions as [|a l IH]; cbn; [reflexivity|].
  destruct (contains o (option_strings a)); cbn; [discriminate|exact IH].
Qed.

Lemma registrations_positive (actions : list Action) (o : string) :
  registered actions o = true -> 0 < registrations actions o.
Proof.
  unfold registered, registrations.
  induction actions as [|a l IH]; cbn; [discriminate|].
  destruct (contains o (option_strings a)); cbn; [lia|exact IH].
Qed.

Lemma registrations_app (l1 l2 : list Action) (o : string) :
  registrations (l1 ++ l2) o = registrations l1 o + registrations l2 o.
Proof. unfold registrations. now rewrite filter_app, length_app. Qed.

(** With the option string not registered, [add_argument] of the script's
    action cannot clash. *)
Lemma add_model_name_fresh (actions : list Action) :
  registered actions "--model_name" = false ->
  add_argument actions model_name_action = Return (actions ++ [model_name_action]).
Proof.
  intros H. unfold add_argument. cbn [option_strings model_name_action filter].
  now rewrite H.
Qed.

(** [parse_arguments], step by step *)
Lemma parse_arguments_unfold (lib : Argparse) (argv : list string)
    (p : list Action) :
  parse_arguments lib argv p
  = match ArgumentParser_new lib [p] with
    | Raise e => (Raise e, p)
    | Return parser =>
      (parse_args lib parser argv,
       if registered p "--model_name" then p else p ++ [model_name_action])
    end.
Proof.
  unfold parse_arguments. destruct (ArgumentParser_new lib [p]) as [parser|e];
    [|reflexivity].
  rewrite <- registered_unfold.
  destruct (registered p "--model_name") eqn:E; cbn [negb]; [reflexivity|].
  now rewrite (add_model_name_fresh p E).
Qed.

End CliFacts.

(** X10.  [parse_arguments] and the registration of "--model_name".  The
    guard works: [add_argument] is called only when no action of the
    framework's parser carries the option string, so it never raises a clash,
    and the call fails only where making the parser or parsing fails.  The
    framework's parser is left as it was when the option was there (or when
    making the parser failed) and gets the one action appended otherwise; its
    other actions stay in place.  Calling [parse_arguments] again registers
    nothing more.  The command line is parsed by the parser made from the
    framework's parser as it was before the registration. *)
Theorem parse_arguments_registers_once (lib : Cli.Argparse) :
  forall (argv : list string) (p : list Cli.Action),
    fst (Cli.parse_arguments lib argv p)
    = match Cli.ArgumentParser_new lib [p] with
      | Raise e => Raise e
      | Return parser => Cli.parse_args lib parser argv
      end
    /\ snd (Cli.parse_arguments lib argv p)
       = match Cli.ArgumentParser_new lib [p], Cli.registered p "--model_name" with
         | Return _, false => p ++ [Cli.model_name_action]
         | _, _ => p
         end
    /\ Cli.registrations (snd (Cli.parse_arguments lib argv p)) "--model_name"
       = match Cli.ArgumentParser_new lib [p], Cli.registrations p "--model_name" with
         | Return _, 0 => 1
         | _, n => n
         end
    /\ (forall argv' : list string,
           snd (Cli.parse_arguments lib argv'
                  (snd (Cli.parse_arguments lib argv p)))
           = snd (Cli.parse_arguments lib argv p)).
Proof.
  intros argv p.
  assert (Hreg : forall q, Cli.registered (q ++ [Cli.model_name_action]) "--model_name"
                           = true).
  { intros q. unfold Cli.registered. rewrite existsb_app. cbn.
    apply Bool.orb_true_r. }
  assert (Hkeep : forall argv' q, Cli.registered q "--model_name" = true ->
                    snd (Cli.parse_arguments lib argv' q) = q).
  { intros argv' q Hq. rewrite CliFacts.parse_arguments_unfold.
    destruct (Cli.ArgumentParser_new lib [q]); cbn [snd]; [now rewrite Hq|reflexivity]. }
  rewrite CliFacts.parse_arguments_unfold.
  destruct (Cli.ArgumentParser_new lib [p]) as [parser|e] eqn:Enew; cbn [fst snd].
  - destruct (Cli.registered p "--model_name") eqn:E.
    + split; [reflexivity|]. split; [reflexivity|]. split.
      * pose proof (CliFacts.registrations_positive p _ E) as Hpos.
        destruct (Cli.registrations p "--model_name"); [lia|reflexivity].
      * intros argv'. now apply Hkeep.
    + split; [reflexivity|]. split; [reflexivity|]. split.
      * rewrite CliFacts.registrations_app, (CliFacts.registrations_zero p _ E).
        reflexivity.
      * intros argv'. apply Hkeep, Hreg.
  - split; [reflexivity|]. split; [reflexivity|]. split.
    + destruct (Cli.registrations p "--model_name"); reflexivity.
    + intros argv'. rewrite CliFacts.parse_arguments_unfold, Enew. reflexivity.
Qed.

(** X11.  [main] starts the server whatever [load] did.  Once the command
    line is parsed and gives a model name, [main] reaches
    [ModelServer().start] with exactly one wrapper, the one its constructor
    built under that name, whether the artifacts could be read or not: a
    failed load ends in a wrapper that is not ready, not in an error of
    [main].  When the namespace has no [model_name], or parsing fails, [main]
    raises before anything is read from disk. *)
Theorem main_starts_one_wrapper (env : Env) (lib : Cli.Argparse) :
  forall (argv : list string) (p : list Cli.Action) (w : World),
    (forall args p' n,
        Cli.parse_arguments lib argv p = (Return args, p') ->
        Cli.namespace_get args "model_name" = Return n ->
        (exists self w',
            DeploymentMain.main env lib argv p w = (Return [self], p', w')
            /\ Deployment.__init__ env n w = (Return self, w')
            /\ Deployment.name self = n)
        /\
        (exists self w',
            SubmissionMain.main env lib argv p w = (Return [self], p', w')
            /\ Submission.__init__ env n w = (Return self, w')
            /\ Submission.name self = n))
    /\
    (forall args p' e,
        Cli.parse_arguments lib argv p = (Return args, p') ->
        Cli.namespace_get args "model_name" = Raise e ->
        DeploymentMain.main env lib argv p w = (Raise e, p', w)
        /\ SubmissionMain.main env lib argv p w = (Raise e, p', w))
    /\
    (forall e p',
        Cli.parse_arguments lib argv p = (Raise e, p') ->
        DeploymentMain.main env lib argv p w = (Raise e, p', w)
        /\ SubmissionMain.main env lib argv p w = (Raise e, p', w)).
Proof.
  intros argv p w. split; [|split].
  - intros args p' n Hparse Hn. split.
    + destruct (deployment_init env n w) as (self & new & Hi & Hname & _).
      exists self, (after w new). unfold DeploymentMain.main.
      rewrite Hparse, Hn, Hi. repeat split. exact Hname.
    + destruct (submission_init env n w) as (self & new & Hi & Hname & _).
      exists self, (after w new). unfold SubmissionMain.main.
      rewrite Hparse, Hn, Hi. repeat split. exact Hname.
  - intros args p' e Hparse Hn.
    unfold DeploymentMain.main, SubmissionMain.main. rewrite Hparse, Hn.
    split; reflexivity.
  - intros e p' Hparse.
    unfold DeploymentMain.main, SubmissionMain.main. rewrite Hparse.
    split; reflexivity.
Qed.

(** The theorem above on the stand-ins.  With no artifact on disk the server
    is started with a wrapper named "dyu" that is not ready; with a
    framework parser that does not know "--model_name" the namespace has no
    such attribute and [main] raises. *)
Lemma main_starts_one_wrapper_witness :
  (exists self w',
      DeploymentMain.main Stub.env_missing CliStub.argparse
        ["--model_name"; "dyu"] CliStub.kserve_parser world0
      = (Return [self], CliStub.kserve_parser, w')
      /\ Deployment.name self = "dyu"
      /\ Deployment.ready self = false)
  /\
  (exists self w',
      SubmissionMain.main Stub.env_missing CliStub.argparse
        ["--model_name"; "dyu"] CliStub.kserve_parser world0
      = (Return [self], CliStub.kserve_parser, w')
      /\ Submission.name self = "dyu"
      /\ Submission.ready self = false)
  /\
  DeploymentMain.main Stub.env_ok CliStub.argparse [] CliStub.bare_parser world0
  = (Raise (Exn "AttributeError" "'Namespace' object has no attribute 'model_name'"),
     CliStub.bare_parser ++ [Cli.model_name_action], world0).
Proof.
  destruct (main_starts_one_wrapper Stub.env_missing CliStub.argparse
              ["--model_name"; "dyu"] CliStub.kserve_parser world0) as (H1 & _).
  destruct (H1 _ CliStub.kserve_parser "dyu" eq_refl eq_refl)
    as ((s1 & w1 & Hm1 & Hi1 & Hn1) & (s2 & w2 & Hm2 & Hi2 & Hn2)).
  destruct (main_starts_one_wrapper Stub.env_ok CliStub.argparse
              [] CliStub.bare_parser world0) as (_ & H2 & _).
  split; [|split].
  - exists s1, w1. split; [exact Hm1|]. split; [exact Hn1|].
    vm_compute in Hi1. now inversion Hi1.
  - exists s2, w2. split; [exact Hm2|]. split; [exact Hn2|].
    vm_compute in Hi2. now inversion Hi2.
  - apply (H2 [("http_port", "8080")] (CliStub.bare_parser ++ [Cli.model_name_action])
              (Exn "AttributeError" "'Namespace' object has no attribute 'model_name'"));
      reflexivity.
Defined.
